(** * SGBC shell files: fetal-brain quality ranker, prefix remover and
      registration script

    A shallow embedding of the decision logic of [ranker.py], [rename.py]
    and [ants_register.py], with the properties stated about them.

    Conventions of the embedding.
    - Python [float] values are modelled by exact rationals ([Q]); the
      comparisons and the arithmetic are those of the source, without
      rounding error.  Results that the source truncates to [int] live in
      [Z].
    - A value that numpy reports as [nan] or [inf] is kept apart from the
      finite ones (type [npfloat]).
    - A Python [dict] with string keys is a [gmap string _];
      [d.get(k, default)] is [dict_get].  A subscript [d[k]] on a missing
      key raises [KeyError], modelled by [None].
    - The image-processing primitives of OpenCV, pydicom and ANTs are
      parameters of the sections that use them. *)

From Stdlib Require Import ZArith QArith Qround Qminmax Lqa Lia.
From Stdlib Require Import Ascii String DecimalString.
From stdpp Require Import gmap strings list sorting.

Open Scope Z_scope.

(** ** Python built-ins on numbers *)

Module Py.

(** [min(a, b)]: the first minimal argument. *)
Definition min (a b : Q) : Q := if Qle_bool a b then a else b.

(** [int(x)]: truncation towards zero. *)
Definition int (x : Q) : Z := Z.quot (Qnum x) (Z.pos (Qden x)).

(** [abs(x)]. *)
Definition abs (x : Q) : Q := if Qle_bool 0 x then x else (- x)%Q.

(** [a < b] as a test. *)
Definition ltb (a b : Q) : bool := negb (Qle_bool b a).

(** [d.get(k, default)]. *)
Definition dict_get {V} (d : gmap string V) (k : string) (dflt : V) : V :=
  default dflt (d !! k).

(** [max(xs, key=f)]: the first element whose key is maximal; [None]
    stands for the [ValueError] raised on an empty sequence. *)
Fixpoint max_by_from {A} (key : A → Q) (best : A) (xs : list A) : A :=
  match xs with
  | [] => best
  | x :: xs' =>
      if ltb (key best) (key x) then max_by_from key x xs'
      else max_by_from key best xs'
  end.

Definition max_by {A} (key : A → Q) (xs : list A) : option A :=
  match xs with
  | [] => None
  | x :: xs' => Some (max_by_from key x xs')
  end.

End Py.

(** ** The per-orientation threshold table ([FetalBrainQualityAssessor.__init__]) *)

Record Thresholds := {
  excellent : Z;
  good : Z;
  fair : Z;
  blur_weight : Q;
  contrast_weight : Q;
  symmetry_weight : Q
}.

Definition axial_row : Thresholds :=
  {| excellent := 75; good := 60; fair := 40;
     blur_weight := 0.3; contrast_weight := 0.25; symmetry_weight := 0.2 |}.
Definition sagittal_row : Thresholds :=
  {| excellent := 70; good := 55; fair := 35;
     blur_weight := 0.35; contrast_weight := 0.2; symmetry_weight := 0.15 |}.
Definition coronal_row : Thresholds :=
  {| excellent := 72; good := 58; fair := 38;
     blur_weight := 0.25; contrast_weight := 0.3; symmetry_weight := 0.25 |}.
Definition unknown_row : Thresholds :=
  {| excellent := 65; good := 50; fair := 30;
     blur_weight := 0.4; contrast_weight := 0.3; symmetry_weight := 0.1 |}.

Definition quality_thresholds : gmap string Thresholds :=
  <["axial" := axial_row]>
    (<["sagittal" := sagittal_row]>
       (<["coronal" := coronal_row]>
          (<["unknown" := unknown_row]> ∅))).

(** ** Composite score and quality class *)

Inductive QualityClass := EXCELLENT | GOOD | FAIR | POOR.

Section Scoring.
Open Scope Q_scope.

(** The three normalised basic metrics of [calculate_composite_score]. *)
Definition sharpness_norm (metrics : gmap string Q) : Q :=
  Py.min (Py.dict_get metrics "sharpness_score" 0 / 150) 1.0.
Definition contrast_norm (metrics : gmap string Q) : Q :=
  Py.min (Py.dict_get metrics "contrast" 0 / 60) 1.0.
Definition snr_norm (metrics : gmap string Q) : Q :=
  Py.min (Py.dict_get metrics "snr" 0 / 10) 1.0.

Definition base_score (thresholds : Thresholds) (metrics : gmap string Q) : Q :=
  blur_weight thresholds * sharpness_norm metrics +
  contrast_weight thresholds * contrast_norm metrics +
  (1 - blur_weight thresholds - contrast_weight thresholds
     - symmetry_weight thresholds) * snr_norm metrics.

Definition orientation_bonus (thresholds : Thresholds)
    (metrics : gmap string Q) (orientation : string) : Q :=
  if String.eqb orientation "axial" then
    symmetry_weight thresholds *
      (Py.dict_get metrics "bilateral_symmetry" 0 * 0.6 +
       Py.dict_get metrics "shape_regularity" 0 * 0.4)
  else if String.eqb orientation "sagittal" then
    symmetry_weight thresholds *
      (Py.dict_get metrics "midline_clarity" 0 * 0.7 +
       Py.min (Py.dict_get metrics "ap_structures" 0) 1.0 * 0.3)
  else if String.eqb orientation "coronal" then
    symmetry_weight thresholds *
      (Py.dict_get metrics "bilateral_balance" 0 * 0.5 +
       Py.dict_get metrics "vertical_organization" 0 * 0.5)
  else 0.

Definition final_score (thresholds : Thresholds)
    (metrics : gmap string Q) (orientation : string) : Q :=
  (base_score thresholds metrics
   + orientation_bonus thresholds metrics orientation) * 100.

Definition calculate_composite_score
    (metrics : gmap string Q) (orientation : string) : option Z :=
  match quality_thresholds !! orientation with
  | None => None
  | Some thresholds =>
      Some (Py.int (Py.min (final_score thresholds metrics orientation) 100))
  end.

End Scoring.

Definition get_quality_class (score : Z) (orientation : string)
    : option QualityClass :=
  match quality_thresholds !! orientation with
  | None => None
  | Some thresholds =>
      Some (if excellent thresholds <=? score then EXCELLENT
            else if good thresholds <=? score then GOOD
            else if fair thresholds <=? score then FAIR
            else POOR)
  end.

(** ** numpy scalars and the numpy functions the detector calls

    [Fin q] is a finite value; [PInf], [NInf] and [NaN] are the IEEE
    specials numpy produces on division by zero.  Signed zeros are not
    distinguished: a zero divisor counts as [+0.0]. *)

Inductive npfloat := Fin (q : Q) | PInf | NInf | NaN.

Module Np.
Open Scope Q_scope.

Definition isnan (x : npfloat) : bool :=
  match x with NaN => true | _ => false end.

Definition sign_inf (positive : bool) : npfloat :=
  if positive then PInf else NInf.

Definition mul (x y : npfloat) : npfloat :=
  match x, y with
  | NaN, _ | _, NaN => NaN
  | Fin a, Fin b => Fin (a * b)
  | Fin a, PInf | PInf, Fin a =>
      if Qeq_bool a 0 then NaN else sign_inf (Qle_bool 0 a)
  | Fin a, NInf | NInf, Fin a =>
      if Qeq_bool a 0 then NaN else sign_inf (negb (Qle_bool 0 a))
  | PInf, PInf | NInf, NInf => PInf
  | PInf, NInf | NInf, PInf => NInf
  end.

Definition div (x y : npfloat) : npfloat :=
  match x, y with
  | NaN, _ | _, NaN => NaN
  | Fin a, Fin b =>
      if Qeq_bool b 0 then
        (if Qeq_bool a 0 then NaN else sign_inf (Qle_bool 0 a))
      else Fin (a / b)
  | Fin _, (PInf | NInf) => Fin 0
  | PInf, Fin b => sign_inf (Qle_bool 0 b)
  | NInf, Fin b => sign_inf (negb (Qle_bool 0 b))
  | (PInf | NInf), (PInf | NInf) => NaN
  end.

(** Ordering of two scalars; [None] when one of them is [nan]. *)
Definition compare (x y : npfloat) : option comparison :=
  match x, y with
  | NaN, _ | _, NaN => None
  | Fin a, Fin b => Some (a ?= b)
  | NInf, NInf | PInf, PInf => Some Eq
  | NInf, _ | _, PInf => Some Lt
  | _, NInf | PInf, _ => Some Gt
  end.

Definition ltb (x y : npfloat) : bool :=
  match compare x y with Some Lt => true | _ => false end.
Definition leb (x y : npfloat) : bool :=
  match compare x y with Some (Lt | Eq) => true | _ => false end.
Definition gtb (x y : npfloat) : bool := ltb y x.
Definition eqb (x y : npfloat) : bool :=
  match compare x y with Some Eq => true | _ => false end.

(** [abs(x - c)] for a finite constant [c]. *)
Definition abs_diff (x : npfloat) (c : Q) : npfloat :=
  match x with
  | Fin a => Fin (Py.abs (a - c))
  | PInf | NInf => PInf
  | NaN => NaN
  end.

(** [np.clip(x, lo, hi)]. *)
Definition clip (lo hi : Q) (x : npfloat) : npfloat :=
  match x with
  | NaN => NaN
  | PInf => Fin hi
  | NInf => Fin lo
  | Fin a => Fin (if Qle_bool a lo then lo else if Qle_bool hi a then hi else a)
  end.

Definition sum (xs : list Q) : Q := foldr Qplus 0 xs.

(** [np.mean]: the sum over the element count; [nan] on an empty array. *)
Definition mean (xs : list Q) : npfloat :=
  div (Fin (sum xs)) (Fin (inject_Z (Z.of_nat (length xs)))).

Section WithSqrt.
(** The square root on finite non-negative values. *)
Variable np_sqrt : Q → Q.

Definition sqrt (x : npfloat) : npfloat :=
  match x with
  | Fin a => if Qle_bool 0 a then Fin (np_sqrt a) else NaN
  | PInf => PInf
  | NInf | NaN => NaN
  end.

(** [np.std]: square root of the mean squared deviation from the mean. *)
Definition std (xs : list Q) : npfloat :=
  match mean xs with
  | Fin m => sqrt (mean (map (λ x, (x - m) * (x - m)) xs))
  | _ => NaN
  end.

(** [np.corrcoef(x, y)[0, 1]], following numpy's [cov] and [corrcoef]:
    the rows are centred, the products are scaled by [1 / fact] with
    [fact = n - 1] (replaced by [0.0] when not positive), divided by the
    two standard deviations and clipped to [-1, 1]. *)
Definition dot (xs ys : list Q) : Q :=
  sum (zip_with Qmult xs ys).

Definition center (xs : list Q) : list Q :=
  match mean xs with
  | Fin m => map (λ x, x - m) xs
  | _ => map (λ _, 0) xs
  end.

Definition corrcoef01 (xs ys : list Q) : npfloat :=
  let n := Z.of_nat (length xs) in
  let fact := if (n - 1 <=? 0)%Z then 0 else inject_Z (n - 1) in
  let scale := div (Fin 1) (Fin fact) in
  let dx := center xs in
  let dy := center ys in
  let c00 := mul (Fin (dot dx dx)) scale in
  let c01 := mul (Fin (dot dx dy)) scale in
  let c11 := mul (Fin (dot dy dy)) scale in
  clip (-1) 1 (div (div c01 (sqrt c00)) (sqrt c11)).

End WithSqrt.
End Np.

(** ** Orientation detector ([FetalBrainOrientationDetector]) *)

(** A 2-D [uint8] array is the list of its rows, all of one length. *)
Definition Array2 := list (list Z).

Definition height (a : Array2) : nat := length a.
Definition width (a : Array2) : nat :=
  match a with [] => 0%nat | row :: _ => length row end.
Definition flatten (a : Array2) : list Q := map inject_Z (concat a).

(** A feature mapping: feature name to value. *)
Abbreviation Features := (gmap string npfloat).

Section Detector.
Open Scope Q_scope.
Variable np_sqrt : Q → Q.

Definition analyze_symmetry (brain_region : option Array2) : Features :=
  match brain_region with
  | None => ∅
  | Some region =>
      let h := height region in
      let w := width region in
      let left_half := map (take (w / 2)) region in
      let right_half := map (drop (w / 2)) region in
      let right_half_flipped := map (@rev Z) right_half in
      let min_width := Nat.min (width left_half) (width right_half_flipped) in
      let left_half := map (take min_width) left_half in
      let right_half_flipped := map (take min_width) right_half_flipped in
      let horizontal_symmetry :=
        Np.corrcoef01 np_sqrt (flatten left_half) (flatten right_half_flipped) in
      let top_half := take (h / 2) region in
      let bottom_half := drop (h / 2) region in
      let bottom_half_flipped := rev bottom_half in
      let min_height := Nat.min (height top_half) (height bottom_half_flipped) in
      let top_half := take min_height top_half in
      let bottom_half_flipped := take min_height bottom_half_flipped in
      let vertical_symmetry :=
        Np.corrcoef01 np_sqrt (flatten top_half) (flatten bottom_half_flipped) in
      <["horizontal_symmetry" :=
          if negb (Np.isnan horizontal_symmetry) then horizontal_symmetry else Fin 0]>
        (<["vertical_symmetry" :=
             if negb (Np.isnan vertical_symmetry) then vertical_symmetry else Fin 0]> ∅)
  end.

Definition calculate_skewness (image : Array2) : npfloat :=
  let flat := flatten image in
  let mean := Np.mean flat in
  let std := Np.std np_sqrt flat in
  if Np.eqb std (Fin 0) then Fin 0
  else
    match mean, std with
    | Fin m, Fin s =>
        Np.mean (map (λ x, ((x - m) / s) * ((x - m) / s) * ((x - m) / s)) flat)
    | _, _ => NaN
    end.

(** [np.median]: the middle of the sorted values, or the mean of the two
    middle ones. *)
Definition median (xs : list Q) : npfloat :=
  let sorted := merge_sort (λ x y, Is_true (Qle_bool x y)) xs in
  let n := length sorted in
  if Nat.even n then
    match sorted !! (n / 2 - 1)%nat, sorted !! (n / 2)%nat with
    | Some a, Some b => Fin ((a + b) / 2)
    | _, _ => NaN
    end
  else
    match sorted !! (n / 2)%nat with
    | Some a => Fin a
    | None => NaN
    end.

(** [cv2.Canny] followed by [cv2.HoughLines], with each [theta]
    converted to degrees; [None] when no line is found. *)
Variable hough_line_angles : Array2 → option (list Q).

(** [None] is the [ZeroDivisionError] of [w / h] on an array without
    rows. *)
Definition detect_anatomical_features (brain_region : option Array2)
    : option Features :=
  match brain_region with
  | None => Some ∅
  | Some region =>
      let h := height region in
      let w := width region in
      if (h =? 0)%nat then None
      else
        let aspect_ratio := inject_Z (Z.of_nat w) / inject_Z (Z.of_nat h) in
        let features : Features := <["aspect_ratio" := Fin aspect_ratio]> ∅ in
        let features :=
          match hough_line_angles region with
          | Some angles =>
              <["line_count" := Fin (inject_Z (Z.of_nat (length angles)))]>
                (<["dominant_line_angle" :=
                     match angles with [] => Fin 0 | _ => median angles end]>
                   features)
          | None =>
              <["line_count" := Fin 0]>
                (<["dominant_line_angle" := Fin 0]> features)
          end in
        let features :=
          <["intensity_std" := Np.std np_sqrt (flatten region)]> features in
        let features :=
          <["intensity_skewness" := calculate_skewness region]> features in
        Some features
  end.

(** The three additive orientation scores, each starting from [0.0]. *)
Definition axial_score (all_features : Features) : Q :=
  let score := 0.0 in
  let score :=
    if Np.gtb (Py.dict_get all_features "horizontal_symmetry" (Fin 0)) (Fin 0.5)
    then score + 3.0 else score in
  let score :=
    if Np.leb (Fin 0.8) (Py.dict_get all_features "aspect_ratio" (Fin 0))
       && Np.leb (Py.dict_get all_features "aspect_ratio" (Fin 0)) (Fin 1.3)
    then score + 2.0 else score in
  if Np.gtb (Py.dict_get all_features "intensity_std" (Fin 0)) (Fin 20)
  then score + 1.0 else score.

Definition sagittal_score (all_features : Features) : Q :=
  let score := 0.0 in
  let score :=
    if Np.ltb (Py.dict_get all_features "vertical_symmetry" (Fin 0)) (Fin 0.3)
    then score + 2.0 else score in
  let score :=
    if Np.leb (Fin 0.6) (Py.dict_get all_features "aspect_ratio" (Fin 0))
       && Np.leb (Py.dict_get all_features "aspect_ratio" (Fin 0)) (Fin 1.0)
    then score + 2.0 else score in
  if Np.ltb
       (Np.abs_diff (Py.dict_get all_features "dominant_line_angle" (Fin 90)) 90)
       (Fin 20)
  then score + 2.0 else score.

Definition coronal_score (all_features : Features) : Q :=
  let score := 0.0 in
  let score :=
    if Np.gtb (Py.dict_get all_features "vertical_symmetry" (Fin 0)) (Fin 0.4)
    then score + 2.0 else score in
  let score :=
    if Np.leb (Fin 0.9) (Py.dict_get all_features "aspect_ratio" (Fin 0))
       && Np.leb (Py.dict_get all_features "aspect_ratio" (Fin 0)) (Fin 1.4)
    then score + 1.5 else score in
  if Np.gtb (Py.dict_get all_features "horizontal_symmetry" (Fin 0)) (Fin 0.3)
  then score + 1.5 else score.

(** The [scores] dict, in insertion order. *)
Definition orientation_scores (all_features : Features) : list (string * Q) :=
  [("axial", axial_score all_features);
   ("sagittal", sagittal_score all_features);
   ("coronal", coronal_score all_features)].

(** Lines 203-208: the best orientation and its confidence. *)
Definition classify (all_features : Features) : option (string * Q) :=
  match Py.max_by snd (orientation_scores all_features) with
  | None => None
  | Some (best_orientation, best_score) =>
      let confidence := Py.min (best_score / 5.0) 1.0 in
      Some (best_orientation, confidence)
  end.

(** [detect_brain_region]: normalisation, blur, Otsu threshold and the
    crop to the largest contour; [None] stands for [(None, None)]. *)
Variable Image : Type.
Variable detect_brain_region : Image → option (Array2 * Array2).

(** [None] is an exception escaping the function. *)
Definition determine_fetal_orientation (image_array : Image)
    : option (string * Q * Features) :=
  match detect_brain_region image_array with
  | None => Some ("unknown", 0.0, ∅)
  | Some (brain_region, brain_mask) =>
      let symmetry_features := analyze_symmetry (Some brain_region) in
      match detect_anatomical_features (Some brain_region) with
      | None => None
      | Some anatomical_features =>
          let all_features : Features :=
            anatomical_features ∪ symmetry_features in
          match classify all_features with
          | None => None
          | Some (best_orientation, confidence) =>
              Some (best_orientation, confidence, all_features)
          end
      end
  end.

End Detector.

(** ** Python built-ins on strings

    Names are byte strings; [isdigit] is the ASCII one. *)

Module PyStr.

Definition startswith (s prefix : string) : bool := String.prefix prefix s.

Definition endswith (s suffix : string) : bool :=
  let n := String.length s in
  let k := String.length suffix in
  (k <=? n)%nat && String.eqb (String.substring (n - k) k s) suffix.

(** [needle in s]. *)
Fixpoint contains (needle s : string) : bool :=
  String.prefix needle s ||
  match s with
  | EmptyString => false
  | String _ s' => contains needle s'
  end.

Definition is_digit_char (c : ascii) : bool :=
  let n := nat_of_ascii c in (48 <=? n)%nat && (n <=? 57)%nat.

Fixpoint all_digits (s : string) : bool :=
  match s with
  | EmptyString => true
  | String c s' => is_digit_char c && all_digits s'
  end.

(** [s.isdigit()]: at least one character, and only digits. *)
Definition isdigit (s : string) : bool :=
  match s with
  | EmptyString => false
  | _ => all_digits s
  end.

(** [s.split(sep, maxsplit)] for a one-character separator: at most
    [maxsplit] cuts, from the left. *)
Fixpoint split_n (sep : ascii) (maxsplit : nat) (s : string) : list string :=
  match s with
  | EmptyString => [EmptyString]
  | String c s' =>
      match maxsplit with
      | O => [s]
      | S k =>
          if Ascii.eqb c sep then EmptyString :: split_n sep k s'
          else
            match split_n sep maxsplit s' with
            | [] => [String c EmptyString]
            | part :: parts => String c part :: parts
            end
      end
  end.

(** [s.split(sep)]: no limit on the number of cuts. *)
Definition split (sep : ascii) (s : string) : list string :=
  split_n sep (String.length s) s.

(** [sep.join(parts)]. *)
Definition join (sep : string) (parts : list string) : string :=
  String.concat sep parts.

(** [s.replace(old, new)] for a non-empty [old]; the fuel bounds the
    number of positions visited. *)
Fixpoint replace_fuel (fuel : nat) (old new s : string) : string :=
  match fuel with
  | O => s
  | S fuel' =>
      if String.prefix old s then
        new +:+ replace_fuel fuel' old new
                  (String.substring (String.length old)
                     (String.length s - String.length old) s)
      else
        match s with
        | EmptyString => EmptyString
        | String c s' => String c (replace_fuel fuel' old new s')
        end
  end.

Definition replace (old new s : string) : string :=
  replace_fuel (S (String.length s)) old new s.

(** [str(n)] for an [int]. *)
Definition str_int (n : Z) : string := NilZero.string_of_int (Z.to_int n).

(** [f"{n:02d}"]: zero-padded to two characters, sign included. *)
Definition format_02d (n : Z) : string :=
  let s := str_int n in
  if (String.length s <? 2)%nat then "0" +:+ s else s.

End PyStr.

(** ** Folder analysis and the batch driver ([ranker.py]) *)

Definition quality_name (c : QualityClass) : string :=
  match c with
  | EXCELLENT => "EXCELLENT"
  | GOOD => "GOOD"
  | FAIR => "FAIR"
  | POOR => "POOR"
  end.

(** The entries of a per-file result that the folder summary reads. *)
Module File.
Record t := {
  file_path : string;
  composite_score : Z;
  quality_class : QualityClass;
  fetal_orientation : string;
  orientation_confidence : Q;
  maternal_acquisition_plane : string
}.
End File.

(** What [analyze_dicom_file] returns: a result, or a dict with an
    ['error'] entry. *)
Inductive Analysis := Scored (r : File.t) | Failed (error : string).

Module Summary.
Record t := {
  folder_path : string;
  folder_name : string;
  total_dicoms : nat;
  valid_dicoms : nat;
  best_score : Z;
  best_quality_class : QualityClass;
  best_file : string;
  fetal_orientation : string;
  orientation_confidence : Q;
  maternal_acquisition_plane : string;
  most_common_fetal_orientation : string;
  avg_score : Q;
  all_results : list File.t
}.
End Summary.

(** A directory entry of the master folder: its name, its path, whether
    it is a directory, and the paths of the entries inside it. *)
Record Entry := {
  name : string;
  path : string;
  is_dir : bool;
  children : list string
}.

Inductive FolderResult :=
  | FolderError (error : string)
  | FolderSummary (summary : Summary.t)
  | FolderRaises (exc : string).

(** [round(x, 1)] on a numpy float: to the nearest tenth, halves to the
    even one. *)
Definition rint (x : Q) : Z :=
  let f := Qfloor x in
  let r := (x - inject_Z f)%Q in
  match (r ?= 1 # 2)%Q with
  | Lt => f
  | Gt => f + 1
  | Eq => if Z.even f then f else f + 1
  end.

Definition round1 (x : Q) : Q := (inject_Z (rint (x * 10)) / 10)%Q.

(** [np.mean] of the scores; the list is not empty where it is called. *)
Definition mean_score (scores : list Z) : Q :=
  (inject_Z (foldr Z.add 0%Z scores) / inject_Z (Z.of_nat (length scores)))%Q.

(** [xs.count(x)]. *)
Definition count_occ_str (xs : list string) (x : string) : nat :=
  length (filter (λ y, y = x) xs).

Section Batch.

(** Reading and scoring one DICOM file. *)
Variable analyze_dicom_file : string → Analysis.

(** The order in which [set(xs)] is iterated. *)
Variable set_iter : list string → list string.

Definition glob_suffix (suffix : string) (folder : Entry) : list string :=
  filter (λ f, Is_true (PyStr.endswith f suffix)) (children folder).

Definition scored (dicom_files : list string) : list File.t :=
  omap (λ f, match analyze_dicom_file f with
             | Scored r => Some r
             | Failed _ => None
             end) dicom_files.

(** Line 438: the two globs, one after the other. *)
Definition dicom_files_of (folder : Entry) : list string :=
  glob_suffix ".dcm" folder ++ glob_suffix ".DCM" folder.

Definition analyze_patient_folder (folder : Entry) : FolderResult :=
  let dicom_files := dicom_files_of folder in
  match dicom_files with
  | [] => FolderError "No DICOM files found"
  | _ =>
      let results := scored dicom_files in
      match results with
      | [] => FolderError "No valid DICOM files processed"
      | _ =>
          let orientations := map File.fetal_orientation results in
          match
            Py.max_by (λ x, inject_Z (File.composite_score x)) results,
            Py.max_by (λ o, inject_Z (Z.of_nat (count_occ_str orientations o)))
                      (set_iter orientations)
          with
          | Some best_result, Some most_common_orientation =>
              FolderSummary
                {| Summary.folder_path := path folder;
                   Summary.folder_name := name folder;
                   Summary.total_dicoms := length dicom_files;
                   Summary.valid_dicoms := length results;
                   Summary.best_score := File.composite_score best_result;
                   Summary.best_quality_class := File.quality_class best_result;
                   Summary.best_file := File.file_path best_result;
                   Summary.fetal_orientation := File.fetal_orientation best_result;
                   Summary.orientation_confidence :=
                     File.orientation_confidence best_result;
                   Summary.maternal_acquisition_plane :=
                     File.maternal_acquisition_plane best_result;
                   Summary.most_common_fetal_orientation :=
                     most_common_orientation;
                   Summary.avg_score :=
                     round1 (mean_score (map File.composite_score results));
                   Summary.all_results := results |}
          | _, _ => FolderRaises "ValueError"
          end
      end
  end.

(** Lines 511-527: the prefixes of an earlier run are dropped from the
    name. *)
Definition known_prefixes : list string :=
  ["EXCELLENT_"; "GOOD_"; "FAIR_"; "POOR_"; "AXIAL_"; "SAGITTAL_"; "CORONAL_"].
Definition known_words : list string :=
  ["EXCELLENT"; "GOOD"; "FAIR"; "POOR"; "AXIAL"; "SAGITTAL"; "CORONAL"].

Definition clean_original_name (original_name : string) : string :=
  if existsb (PyStr.startswith original_name) known_prefixes then
    let parts := PyStr.split "_" original_name in
    let clean_parts :=
      filter (λ part, Is_true (negb (PyStr.isdigit part
                                     || existsb (String.eqb part) known_words)))
             parts in
    match clean_parts with
    | [] => original_name
    | _ => PyStr.join "_" clean_parts
    end
  else original_name.

Definition confidence_str (orientation_confidence : Q) : string :=
  if Py.ltb 0.5 orientation_confidence
  then "C" +:+ PyStr.format_02d (Py.int (orientation_confidence * 100))
  else "C??".

(** Line 532. *)
Definition new_folder_name (best_score : Z) (quality_class : QualityClass)
    (fetal_orientation : string) (orientation_confidence : Q)
    (original_name : string) : string :=
  PyStr.format_02d best_score +:+ "_" +:+ quality_name quality_class +:+ "_"
    +:+ fetal_orientation +:+ "_" +:+ confidence_str orientation_confidence
    +:+ "_" +:+ original_name.

(** One row of the report: the folder summary with the two names added. *)
Record Row := {
  row_summary : Summary.t;
  original_name : string;
  new_name : string
}.

(** The state the loop of the driver threads: the rows appended to
    [results] and the renames attempted on the file system, oldest
    first. *)
Record BatchState := {
  results : list Row;
  renames : list (string * string)
}.

(** Line 493: directories whose name does not start with a dot. *)
Definition visible_dir (patient_folder : Entry) : bool :=
  is_dir patient_folder && negb (PyStr.startswith (name patient_folder) ".").

Definition process_entry (dry_run : bool) (patient_folder : Entry)
    (st : BatchState) : BatchState + string :=
  if visible_dir patient_folder
  then
    match analyze_patient_folder patient_folder with
    | FolderRaises exc => inr exc
    | FolderError _ => inl st
    | FolderSummary folder_result =>
        let new_name :=
          new_folder_name (Summary.best_score folder_result)
            (Summary.best_quality_class folder_result)
            (Summary.fetal_orientation folder_result)
            (Summary.orientation_confidence folder_result)
            (clean_original_name (name patient_folder)) in
        inl {| results :=
                 results st ++
                 [{| row_summary := folder_result;
                     original_name := name patient_folder;
                     new_name := new_name |}];
               renames :=
                 if dry_run then renames st
                 else renames st ++ [(name patient_folder, new_name)] |}
    end
  else inl st.

Fixpoint batch_loop (dry_run : bool) (entries : list Entry) (st : BatchState)
    : BatchState + string :=
  match entries with
  | [] => inl st
  | patient_folder :: rest =>
      match process_entry dry_run patient_folder st with
      | inl st' => batch_loop dry_run rest st'
      | inr exc => inr exc
      end
  end.

(** What a run leaves behind: the returned rows, the renames attempted,
    and the rows of the CSV report when one is written. *)
Record BatchOutput := {
  returned : list Row;
  renamed : list (string * string);
  csv_rows : option (list Row)
}.

(** [master] is [None] when the master folder does not exist; the
    result is [inr exc] when an exception escapes. *)
Definition rename_folders_with_scores_and_orientation
    (master : option (list Entry)) (dry_run : bool)
    : option BatchOutput + string :=
  match master with
  | None => inl None
  | Some entries =>
      match batch_loop dry_run entries {| results := []; renames := [] |} with
      | inr exc => inr exc
      | inl st =>
          inl (Some {| returned := results st;
                       renamed := renames st;
                       csv_rows := match results st with
                                   | [] => None
                                   | rows => Some rows
                                   end |})
      end
  end.

End Batch.

(** ** The prefix remover ([rename.py]) *)

(** Lines 15-19: the name a folder is renamed to, when its name has the
    3-part pattern. *)
Definition stripped_name (folder_name : string) : option string :=
  match PyStr.split_n "_" 2 folder_name with
  | [part0; _; part2] => if PyStr.isdigit part0 then Some part2 else None
  | _ => None
  end.

(** The renames the loop attempts, as [(folder.name, original_name)]. *)
Definition remove_quality_prefix_from_folders
    (master : option (list Entry)) (dry_run : bool)
    : option (list (string * string)) :=
  match master with
  | None => None
  | Some entries =>
      Some
        (omap (λ folder,
                 if is_dir folder && negb (PyStr.startswith (name folder) ".")
                 then
                   match stripped_name (name folder) with
                   | Some original_name =>
                       if dry_run then None
                       else Some (name folder, original_name)
                   | None => None
                   end
                 else None)
              entries)
  end.

(** ** The registration script ([ants_register.py])

    The script is a sequence of calls with effects outside the program;
    a run is the list of those calls in order, ended by normal
    completion or by the exception that stops it. *)

Module Registration.

Inductive Event :=
  | Print (line : string)
  | ImageRead (file : string)
  | RigidRegistration (fixed moving : string)
  | ApplyTransforms (fixed mask : string)
  | ImageWrite (file : string).

Record Exn := { exn_class : string; exn_message : string }.

(** A computation: the events it emitted, and its value or the
    exception raised. *)
Definition Script (A : Type) : Type := list Event * (A + Exn).

Definition raise {A} (cls msg : string) : Script A :=
  ([], inr {| exn_class := cls; exn_message := msg |}).

#[export] Instance script_ret : MRet Script := λ A a, ([], inl a).
#[export] Instance script_bind : MBind Script := λ A B k m,
  match m with
  | (tr, inr e) => (tr, inr e)
  | (tr, inl a) => let '(tr', r) := k a in (tr ++ tr', r)
  end.

(** What the script finds on disk, and whether each library call
    succeeds. *)
Record Env := {
  reg_dir : string;
  glob : string → list string;
  path_exists : string → bool;
  ants_ok : Event → bool
}.

Section Run.
Variable env : Env.

Definition print (line : string) : Script unit := ([Print line], inl tt).

(** A call into the registration library: recorded, then either
    returning or raising. *)
Definition ants (call : Event) : Script unit :=
  if ants_ok env call then ([call], inl tt)
  else ([call], inr {| exn_class := "RuntimeError"; exn_message := "" |}).

(** [os.path.join(dir, file)] for a directory written without a
    trailing separator. *)
Definition path_join (dir file : string) : string := dir +:+ "/" +:+ file.

Fixpoint register_masks (fixed : string) (mask_files : list string)
    : Script unit :=
  match mask_files with
  | [] => mret tt
  | mask_file :: rest =>
      ants (ImageRead mask_file) ;;
      ants (ApplyTransforms fixed mask_file) ;;
      let out_mask := PyStr.replace ".nii.gz" "_rai.nii.gz" mask_file in
      ants (ImageWrite out_mask) ;;
      print ("Saved registered mask: " +:+ out_mask) ;;
      register_masks fixed rest
  end.

Definition main : Script unit :=
  let atlas := glob env (path_join (reg_dir env) "t2w_GA*_tissue.nii.gz") in
  let moving_vol := path_join (reg_dir env) "FX27-s1_extracted.nii.gz" in
  let mask_files := glob env (path_join (reg_dir env) "*.nii.gz") in
  let mask_files :=
    filter (λ f, Is_true (negb (PyStr.contains "t2w_GA" f)
                          && negb (PyStr.contains "srr_deconv" f)))
           mask_files in
  if (length atlas =? 0)%nat then
    raise "FileNotFoundError" "No atlas file found (t2w_GA##_tissue.nii.gz)"
  else if negb (path_exists env moving_vol) then
    raise "FileNotFoundError" "srr_deconv.nii.gz not found"
  else
    match atlas with
    | [] => raise "IndexError" "list index out of range"
    | atlas :: _ =>
        print ("Using atlas: " +:+ atlas) ;;
        print ("Using moving volume: " +:+ moving_vol) ;;
        print ("Found " +:+ PyStr.str_int (Z.of_nat (length mask_files))
               +:+ " masks") ;;
        ants (ImageRead atlas) ;;
        ants (ImageRead moving_vol) ;;
        print "Running rigid registration..." ;;
        ants (RigidRegistration atlas moving_vol) ;;
        let out_moving := path_join (reg_dir env) "srr_registered.nii.gz" in
        ants (ImageWrite out_moving) ;;
        print ("Saved registered SRR volume: " +:+ out_moving) ;;
        register_masks atlas mask_files ;;
        print "Registration completed for all files."
    end.
(* The last line is printed without the symbol that precedes it in the
   source. *)

End Run.

End Registration.

(** ** Concrete inputs used in the examples below *)

(** A metrics mapping of a flat image whose two halves are perfectly
    anti-correlated in both directions. *)
Definition anticorrelated_metrics : gmap string Q :=
  <["sharpness_score" := 0%Q]>
    (<["contrast" := 0%Q]>
       (<["snr" := 0%Q]>
          (<["bilateral_balance" := (-1)%Q]>
             (<["vertical_organization" := (-1)%Q]> ∅)))).

(** A metrics mapping with every basic metric above its divisor. *)
Definition saturated_metrics : gmap string Q :=
  <["sharpness_score" := 400%Q]>
    (<["contrast" := 80%Q]>
       (<["snr" := 25%Q]> ∅)).

(** The keys of [quality_thresholds], with their cutoffs. *)
Definition cutoff_table : list (string * (Z * Z * Z)) :=
  [("axial", (75, 60, 40)); ("sagittal", (70, 55, 35));
   ("coronal", (72, 58, 38)); ("unknown", (65, 50, 30))].

(** The features the orientation scores read. *)
Definition classification_inputs : list string :=
  ["horizontal_symmetry"; "vertical_symmetry"; "aspect_ratio";
   "dominant_line_angle"; "intensity_std"].

(** A square root on rationals good enough to run the detector: the
    integer square root of the numerator scaled by the denominator. *)
Definition isqrt_Q (q : Q) : Q :=
  (inject_Z (Z.sqrt (Qnum q * Z.pos (Qden q))) / inject_Z (Z.pos (Qden q)))%Q.

(** A region finder that takes the whole image as the region, and fails
    on an image without rows. *)
Definition whole_image_region (image : Array2) : option (Array2 * Array2) :=
  match image with
  | [] => None
  | _ => Some (image, image)
  end.

Definition no_lines (region : Array2) : option (list Q) := None.

Definition mirrored_image : Array2 := [[1; 2; 2; 1]; [3; 4; 4; 3]].

(** Two feature mappings that agree on the classification inputs and
    differ elsewhere. *)
Definition features_few_lines : Features :=
  <["horizontal_symmetry" := Fin 0.9]>
    (<["vertical_symmetry" := Fin 0.5]>
       (<["aspect_ratio" := Fin 1.0]>
          (<["dominant_line_angle" := Fin 0]>
             (<["intensity_std" := Fin 30]>
                (<["line_count" := Fin 3]> ∅))))).

Definition features_many_lines : Features :=
  <["horizontal_symmetry" := Fin 0.9]>
    (<["vertical_symmetry" := Fin 0.5]>
       (<["aspect_ratio" := Fin 1.0]>
          (<["dominant_line_angle" := Fin 0]>
             (<["intensity_std" := Fin 30]>
                (<["line_count" := Fin 12]>
                   (<["intensity_skewness" := Fin 0.25]> ∅)))))).

(** An all-white 2 x 3 region. *)
Definition white_region : Array2 := [[255; 255; 255]; [255; 255; 255]].

(** A case folder with three slices: two axial ones scoring 40 and a
    sagittal one scoring 70. *)
Definition slice (file : string) (score : Z) (c : QualityClass)
    (orientation : string) : Analysis :=
  Scored {| File.file_path := file;
            File.composite_score := score;
            File.quality_class := c;
            File.fetal_orientation := orientation;
            File.orientation_confidence := 1.0;
            File.maternal_acquisition_plane := "UNKNOWN" |}.

Definition three_slices : Entry :=
  {| name := "case1"; path := "/data/case1"; is_dir := true;
     children := ["/data/case1/a.dcm"; "/data/case1/b.dcm";
                  "/data/case1/c.dcm"; "/data/case1/notes.txt"] |}.

(** A case folder with two slices of equal score and different
    orientations. *)
Definition two_slices : Entry :=
  {| name := "case2"; path := "/data/case2"; is_dir := true;
     children := ["/data/case2/p.dcm"; "/data/case2/q.dcm"] |}.

(** A case folder whose only DICOM file cannot be read. *)
Definition unreadable_case : Entry :=
  {| name := "case3"; path := "/data/case3"; is_dir := true;
     children := ["/data/case3/broken.dcm"] |}.

Definition sample_analysis (file : string) : Analysis :=
  if String.eqb file "/data/case1/a.dcm" then slice file 40 FAIR "AXIAL"
  else if String.eqb file "/data/case1/b.dcm" then slice file 40 FAIR "AXIAL"
  else if String.eqb file "/data/case1/c.dcm" then slice file 70 EXCELLENT "SAGITTAL"
  else if String.eqb file "/data/case2/p.dcm" then slice file 50 FAIR "AXIAL"
  else if String.eqb file "/data/case2/q.dcm" then slice file 50 FAIR "SAGITTAL"
  else Failed "No pixel data found".

(** Two iteration orders a set of strings may have: the distinct
    elements in order of first occurrence, and the same backwards. *)
Definition first_seen_order (xs : list string) : list string := remove_dups xs.
Definition last_seen_order (xs : list string) : list string :=
  reverse (remove_dups xs).

(** A master folder holding the three case folders, a hidden directory
    and a plain file. *)
Definition sample_master : list Entry :=
  [ three_slices;
    unreadable_case;
    {| name := ".cache"; path := "/data/.cache"; is_dir := true;
       children := ["/data/.cache/x.dcm"] |};
    {| name := "readme.txt"; path := "/data/readme.txt"; is_dir := false;
       children := [] |};
    two_slices ].

(** [sep not in s]. *)
Fixpoint free_of (sep : ascii) (s : string) : bool :=
  match s with
  | EmptyString => true
  | String c s' => negb (Ascii.eqb c sep) && free_of sep s'
  end.

(** A registration folder with nothing in it, and one that holds the
    atlas but not the subject volume. *)
Definition empty_reg_dir : Registration.Env :=
  {| Registration.reg_dir := "/reg";
     Registration.glob := λ _, [];
     Registration.path_exists := λ _, false;
     Registration.ants_ok := λ _, true |}.

(** A registration folder with the atlas, the subject volume and one
    mask. *)
Definition complete_reg_dir : Registration.Env :=
  {| Registration.reg_dir := "/reg";
     Registration.glob := λ pattern,
       if String.eqb pattern "/reg/t2w_GA*_tissue.nii.gz"
       then ["/reg/t2w_GA37_tissue.nii.gz"]
       else ["/reg/t2w_GA37_tissue.nii.gz"; "/reg/FX27-s1_extracted.nii.gz";
             "/reg/sub_L_pial.nii.gz"];
     Registration.path_exists := λ _, true;
     Registration.ants_ok := λ _, true |}.

Definition atlas_only_reg_dir : Registration.Env :=
  {| Registration.reg_dir := "/reg";
     Registration.glob := λ _, ["/reg/t2w_GA37_tissue.nii.gz"];
     Registration.path_exists := λ _, false;
     Registration.ants_ok := λ _, true |}.

(** ** Further functions of [ranker.py] *)

(** [xs[-k:]]: the last [k] elements, and everything when [k] is 0. *)
Definition slice_last {A} (k : nat) (xs : list A) : list A :=
  if (k =? 0)%nat then xs else drop (length xs - k) xs.

(** Lines 295-306: the four border strips, flattened one after the
    other. *)
Definition get_noise_regions (image : Array2) : list Q :=
  let h := height image in
  let w := width image in
  let border_width := (Nat.min h w / 10)%nat in
  let top := take border_width image in
  let bottom := slice_last border_width image in
  let left := map (take border_width) image in
  let right := map (slice_last border_width) image in
  flatten top ++ flatten bottom ++ flatten left ++ flatten right.

(** Lines 416-431.  The argument is the [ImageOrientationPatient]
    attribute, [None] when the data set has none; an index past the end
    raises, and the bare [except] turns that into "UNKNOWN". *)
Definition get_acquisition_plane_from_metadata (iop : option (list Q)) : string :=
  match iop with
  | None => "UNKNOWN"
  | Some iop =>
      match iop !! 0%nat with
      | None => "UNKNOWN"
      | Some x0 =>
          if Py.ltb 0.9 (Py.abs x0) then "SAGITTAL"
          else
            match iop !! 1%nat with
            | None => "UNKNOWN"
            | Some x1 =>
                if Py.ltb 0.9 (Py.abs x1) then "CORONAL"
                else
                  match iop !! 2%nat with
                  | None => "UNKNOWN"
                  | Some x2 =>
                      if Py.ltb 0.9 (Py.abs x2) then "AXIAL" else "UNKNOWN"
                  end
            end
      end
  end.

Module NpArith.
Open Scope Q_scope.

(** [x + y] and [x - y] on numpy scalars. *)
Definition add (x y : npfloat) : npfloat :=
  match x, y with
  | NaN, _ | _, NaN => NaN
  | Fin a, Fin b => Fin (a + b)
  | PInf, NInf | NInf, PInf => NaN
  | PInf, _ | _, PInf => PInf
  | NInf, _ | _, NInf => NInf
  end.

Definition opp (x : npfloat) : npfloat :=
  match x with
  | Fin a => Fin (- a)
  | PInf => NInf
  | NInf => PInf
  | NaN => NaN
  end.

Definition sub (x y : npfloat) : npfloat := add x (opp y).

End NpArith.

(** Lines 277-291 of [calculate_orientation_specific_quality]: the
    metrics added for the orientation to the three basic ones, which
    come from OpenCV and are passed in. *)
Definition calculate_orientation_specific_quality
    (sharpness_score contrast snr : npfloat)
    (orientation : string) (orientation_features : Features)
    : gmap string npfloat :=
  let metrics : gmap string npfloat :=
    <["snr" := snr]>
      (<["contrast" := contrast]>
         (<["sharpness_score" := sharpness_score]> ∅)) in
  if String.eqb orientation "axial" then
    <["shape_regularity" :=
        Np.div (Fin 1.0)
          (NpArith.add
             (Np.abs_diff (Py.dict_get orientation_features "aspect_ratio" (Fin 1)) 1.0)
             (Fin 0.1))]>
      (<["bilateral_symmetry" :=
           Py.dict_get orientation_features "horizontal_symmetry" (Fin 0)]> metrics)
  else if String.eqb orientation "sagittal" then
    <["ap_structures" :=
        Np.div (Py.dict_get orientation_features "intensity_std" (Fin 0)) (Fin 50.0)]>
      (<["midline_clarity" :=
           NpArith.sub (Fin 1.0)
             (Py.dict_get orientation_features "vertical_symmetry" (Fin 0.5))]> metrics)
  else if String.eqb orientation "coronal" then
    <["vertical_organization" :=
        Py.dict_get orientation_features "vertical_symmetry" (Fin 0)]>
      (<["bilateral_balance" :=
           Py.dict_get orientation_features "horizontal_symmetry" (Fin 0)]> metrics)
  else metrics.

(** The metric names [calculate_composite_score] looks up for an
    orientation. *)
Definition basic_metric_keys : list string := ["sharpness_score"; "contrast"; "snr"].

Definition bonus_metric_keys (orientation : string) : list string :=
  if String.eqb orientation "axial" then ["bilateral_symmetry"; "shape_regularity"]
  else if String.eqb orientation "sagittal" then ["midline_clarity"; "ap_structures"]
  else if String.eqb orientation "coronal" then ["bilateral_balance"; "vertical_organization"]
  else [].

(** The order of the quality classes, worst first. *)
Definition class_rank (c : QualityClass) : Z :=
  match c with
  | POOR => 0
  | FAIR => 1
  | GOOD => 2
  | EXCELLENT => 3
  end.

(** A 12 x 20 image with a ramp in every row, a 3 x 4 one, and a region
    whose rows read the same in both directions. *)
Definition ramp_image : Array2 :=
  replicate 12 (map Z.of_nat (seq 0 20)).
Definition small_image : Array2 := [[1; 2; 3; 4]; [5; 6; 7; 8]; [9; 10; 11; 12]].
Definition mirror_halves : Array2 := [[0]; [3]; [6]].

(** * Properties *)

(** ** Arithmetic of the Python built-ins *)

Section PyFacts.
Open Scope Q_scope.

Lemma min_le_l (a b : Q) : Py.min a b <= a.
Proof.
  unfold Py.min. destruct (Qle_bool a b) eqn:E; [lra|].
  assert (~ a <= b) by (rewrite <- Qle_bool_iff; congruence). lra.
Qed.

Lemma min_le_r (a b : Q) : Py.min a b <= b.
Proof.
  unfold Py.min. destruct (Qle_bool a b) eqn:E; [|lra].
  now apply Qle_bool_iff.
Qed.

Lemma min_glb (a b c : Q) : c <= a → c <= b → c <= Py.min a b.
Proof. unfold Py.min. now destruct (Qle_bool a b). Qed.

Lemma min_Qmin (a b : Q) : Py.min a b == Qmin a b.
Proof.
  unfold Py.min. destruct (Qle_bool a b) eqn:E.
  - apply Qle_bool_iff in E. now rewrite Q.min_l.
  - assert (~ a <= b) by (rewrite <- Qle_bool_iff; congruence).
    rewrite Q.min_r; [reflexivity | lra].
Qed.

#[export] Instance min_proper : Proper (Qeq ==> Qeq ==> Qeq) Py.min.
Proof. intros a a' Ha b b' Hb. now rewrite !min_Qmin, Ha, Hb. Qed.

#[export] Instance int_proper : Proper (Qeq ==> eq) Py.int.
Proof.
  intros [n1 d1] [n2 d2] H. unfold Py.int, Qeq in *. simpl in *.
  rewrite <- (Z.quot_mul_cancel_r n1 (Z.pos d1) (Z.pos d2)) by lia.
  rewrite <- (Z.quot_mul_cancel_r n2 (Z.pos d2) (Z.pos d1)) by lia.
  rewrite H. f_equal. lia.
Qed.

Lemma int_nonneg (x : Q) : 0 <= x → (0 <= Py.int x)%Z.
Proof.
  destruct x as [n d]. unfold Qle, Py.int. simpl. intros H.
  apply Z.quot_pos; lia.
Qed.

Lemma int_le_bound (x : Q) (k : Z) : x <= inject_Z k → (Py.int x <= k)%Z.
Proof.
  destruct x as [n d]. unfold Qle, Py.int. simpl. intros H.
  destruct (Z.le_gt_cases 0 n) as [Hn|Hn].
  - rewrite Z.quot_div_nonneg by lia.
    apply Z.lt_succ_r. apply Z.div_lt_upper_bound; [lia|]. nia.
  - replace n with (- - n)%Z by lia.
    rewrite Z.quot_opp_l by lia. rewrite Z.quot_div_nonneg by lia.
    assert (- k <= - n / Z.pos d)%Z; [|lia].
    apply Z.div_le_lower_bound; [lia|]. nia.
Qed.

End PyFacts.

(** ** The threshold table *)

Lemma quality_thresholds_lookup (o : string) (t : Thresholds) :
  quality_thresholds !! o = Some t →
  (o = "axial" ∧ t = axial_row) ∨ (o = "sagittal" ∧ t = sagittal_row) ∨
  (o = "coronal" ∧ t = coronal_row) ∨ (o = "unknown" ∧ t = unknown_row).
Proof.
  unfold quality_thresholds. rewrite !lookup_insert, lookup_empty.
  repeat case_decide; naive_solver.
Qed.

Lemma cutoff_table_lookup (o : string) (e g f : Z) :
  (o, (e, g, f)) ∈ cutoff_table →
  ∃ t, quality_thresholds !! o = Some t ∧
       excellent t = e ∧ good t = g ∧ fair t = f ∧ (f < g < e)%Z.
Proof.
  unfold cutoff_table. rewrite !elem_of_cons, elem_of_nil.
  intros [H|[H|[H|[H|[]]]]]; injection H as -> -> -> ->;
    eexists; (split; [reflexivity | simpl; lia]).
Qed.

(** ** Quality class *)

(** C7: for every integer score and every orientation of the threshold
    table (axial 75/60/40, sagittal 70/55/35, coronal 72/58/38, unknown
    65/50/30), the class is EXCELLENT exactly from the excellent cutoff
    up, otherwise GOOD exactly from the good cutoff up, otherwise FAIR
    exactly from the fair cutoff up, otherwise POOR. *)
Theorem quality_class_by_cutoffs (score : Z) (o : string) (e g f : Z) :
  (o, (e, g, f)) ∈ cutoff_table →
  ∃ c, get_quality_class score o = Some c ∧
       (c = EXCELLENT ↔ e <= score) ∧
       (c = GOOD ↔ g <= score < e) ∧
       (c = FAIR ↔ f <= score < g) ∧
       (c = POOR ↔ score < f).
Proof.
  intros Hin. destruct (cutoff_table_lookup _ _ _ _ Hin)
    as (t & Ht & <- & <- & <- & Hord).
  unfold get_quality_class. rewrite Ht. eexists. split; [reflexivity|].
  destruct (Z.leb_spec (excellent t) score);
    destruct (Z.leb_spec (good t) score);
    destruct (Z.leb_spec (fair t) score);
    repeat split; intros; try discriminate; try lia; try reflexivity.
Qed.

Lemma quality_class_by_cutoffs_witness :
  ∃ c, get_quality_class 58 "coronal" = Some c ∧
       (c = EXCELLENT ↔ 72 <= 58) ∧ (c = GOOD ↔ 58 <= 58 < 72) ∧
       (c = FAIR ↔ 38 <= 58 < 58) ∧ (c = POOR ↔ 58 < 38).
Proof.
  apply (quality_class_by_cutoffs 58 "coronal" 72 58 38).
  unfold cutoff_table. do 2 apply list_elem_of_further. apply list_elem_of_here.
Defined.

(** ** Composite score *)

Section CompositeFacts.
Open Scope Q_scope.

Lemma dict_get_nonneg (metrics : gmap string Q) (k : string) :
  (∀ k v, metrics !! k = Some v → 0 <= v) → 0 <= Py.dict_get metrics k 0.
Proof.
  intros H. unfold Py.dict_get. destruct (metrics !! k) eqn:E; simpl.
  - eauto.
  - lra.
Qed.

Lemma norms_le_1 (metrics : gmap string Q) :
  sharpness_norm metrics <= 1 ∧ contrast_norm metrics <= 1
  ∧ snr_norm metrics <= 1.
Proof.
  unfold sharpness_norm, contrast_norm, snr_norm.
  repeat split; (eapply Qle_trans; [apply min_le_r | compute; discriminate]).
Qed.

Lemma norms_nonneg (metrics : gmap string Q) :
  (∀ k v, metrics !! k = Some v → 0 <= v) →
  0 <= sharpness_norm metrics ∧ 0 <= contrast_norm metrics
  ∧ 0 <= snr_norm metrics.
Proof.
  intros H. unfold sharpness_norm, contrast_norm, snr_norm.
  repeat split; apply min_glb; try (compute; discriminate);
    apply Qle_shift_div_l; try reflexivity;
    rewrite Qmult_0_l; now apply dict_get_nonneg.
Qed.

Lemma final_score_nonneg (metrics : gmap string Q) (o : string) (t : Thresholds) :
  quality_thresholds !! o = Some t →
  (∀ k v, metrics !! k = Some v → 0 <= v) →
  0 <= final_score t metrics o.
Proof.
  intros Ht H.
  destruct (norms_nonneg metrics H) as (Hs & Hc & Hn).
  pose proof (dict_get_nonneg metrics "bilateral_symmetry" H).
  pose proof (dict_get_nonneg metrics "shape_regularity" H).
  pose proof (dict_get_nonneg metrics "midline_clarity" H).
  pose proof (dict_get_nonneg metrics "ap_structures" H).
  pose proof (dict_get_nonneg metrics "bilateral_balance" H).
  pose proof (dict_get_nonneg metrics "vertical_organization" H).
  assert (0 <= Py.min (Py.dict_get metrics "ap_structures" 0) 1.0)
    by (apply min_glb; [assumption | compute; discriminate]).
  unfold final_score, base_score, orientation_bonus.
  destruct (quality_thresholds_lookup _ _ Ht) as [[-> ->]|[[-> ->]|[[-> ->]|[-> ->]]]];
    cbn [String.eqb Ascii.eqb Bool.eqb blur_weight contrast_weight symmetry_weight
         axial_row sagittal_row coronal_row unknown_row]; lra.
Qed.

End CompositeFacts.

(** C2 (as the code has it): for every metrics mapping and every
    orientation of the threshold table, [calculate_composite_score]
    returns an integer that is at most 100: each of the three
    normalisations is clamped from above at 1, and the final value is
    clamped from above at 100 and truncated.  Nothing is clamped from
    below; the result and the normalisations are non-negative when every
    value of the mapping is. *)
Theorem composite_score_clamped_above (metrics : gmap string Q) (o : string) :
  o ∈ cutoff_table.*1 →
  ∃ t score,
    quality_thresholds !! o = Some t ∧
    calculate_composite_score metrics o = Some score ∧
    score = Py.int (Py.min (final_score t metrics o) 100) ∧
    score <= 100 ∧
    (sharpness_norm metrics <= 1 ∧ contrast_norm metrics <= 1
     ∧ snr_norm metrics <= 1)%Q ∧
    ((∀ k v, metrics !! k = Some v → (0 <= v)%Q) →
     0 <= score ∧
     (0 <= sharpness_norm metrics ∧ 0 <= contrast_norm metrics
      ∧ 0 <= snr_norm metrics)%Q).
Proof.
  intros Hin.
  assert (∃ t, quality_thresholds !! o = Some t) as [t Ht].
  { simpl in Hin. rewrite !elem_of_cons, elem_of_nil in Hin.
    destruct Hin as [->|[->|[->|[->|[]]]]]; eexists; reflexivity. }
  exists t, (Py.int (Py.min (final_score t metrics o) 100)).
  unfold calculate_composite_score. rewrite Ht.
  repeat split; try apply norms_le_1.
  - apply (int_le_bound _ 100). apply min_le_r.
  - apply int_nonneg. apply min_glb; [|compute; discriminate].
    now apply final_score_nonneg.
  - now apply norms_nonneg.
  - now apply norms_nonneg.
  - now apply norms_nonneg.
Qed.

Lemma composite_score_clamped_above_witness :
  ∃ t score,
    quality_thresholds !! "axial" = Some t ∧
    calculate_composite_score saturated_metrics "axial" = Some score ∧
    score = Py.int (Py.min (final_score t saturated_metrics "axial") 100) ∧
    score <= 100 ∧
    (sharpness_norm saturated_metrics <= 1 ∧ contrast_norm saturated_metrics <= 1
     ∧ snr_norm saturated_metrics <= 1)%Q ∧
    ((∀ k v, saturated_metrics !! k = Some v → (0 <= v)%Q) →
     0 <= score ∧
     (0 <= sharpness_norm saturated_metrics ∧ 0 <= contrast_norm saturated_metrics
      ∧ 0 <= snr_norm saturated_metrics)%Q).
Proof.
  apply (composite_score_clamped_above saturated_metrics "axial").
  simpl. apply list_elem_of_here.
Defined.

(** C2, as stated, fails: with both symmetry correlations at -1 and flat
    basic metrics the coronal score is -25, below the interval. *)
Lemma composite_score_negative :
  calculate_composite_score anticorrelated_metrics "coronal" = Some (-25)
  ∧ ¬ (0 <= -25 <= 100).
Proof. split; [vm_compute; reflexivity | lia]. Qed.

(** C10: with the orientation 'unknown' no bonus branch is taken, the
    bonus is 0, and the score is [int(min(base_score * 100, 100))] with
    the weights of the 'unknown' row: blur 0.4, contrast 0.3, symmetry
    0.1, hence 0.2 on the normalised SNR. *)
Theorem unknown_orientation_score (metrics : gmap string Q) :
  quality_thresholds !! "unknown" = Some unknown_row ∧
  (blur_weight unknown_row = 0.4 ∧ contrast_weight unknown_row = 0.3
   ∧ symmetry_weight unknown_row = 0.1)%Q ∧
  orientation_bonus unknown_row metrics "unknown" = 0%Q ∧
  (base_score unknown_row metrics ==
     0.4 * sharpness_norm metrics + 0.3 * contrast_norm metrics
     + 0.2 * snr_norm metrics)%Q ∧
  calculate_composite_score metrics "unknown" =
    Some (Py.int (Py.min (base_score unknown_row metrics * 100) 100)).
Proof.
  split; [reflexivity|]. split; [repeat split|]. split; [reflexivity|].
  split.
  - unfold base_score. simpl. ring.
  - unfold calculate_composite_score.
    change (quality_thresholds !! "unknown") with (Some unknown_row).
    f_equal. apply int_proper. apply min_proper; [|reflexivity].
    unfold final_score.
    change (orientation_bonus unknown_row metrics "unknown") with 0%Q.
    ring.
Qed.

(** ** Orientation classification *)

Section ClassifyFacts.
Open Scope Q_scope.

Lemma ltb_lt (a b : Q) : Py.ltb a b = true ↔ a < b.
Proof.
  unfold Py.ltb. rewrite negb_true_iff.
  destruct (Qle_bool b a) eqn:E.
  - apply Qle_bool_iff in E. split; [discriminate | lra].
  - assert (~ b <= a) by (rewrite <- Qle_bool_iff; congruence).
    split; [lra | reflexivity].
Qed.

Lemma ltb_ge (a b : Q) : Py.ltb a b = false ↔ b <= a.
Proof.
  unfold Py.ltb. rewrite negb_false_iff. apply Qle_bool_iff.
Qed.

(** The argmax over the three scores, with the earlier key winning a
    tie. *)
Lemma classify_priority (f : Features) :
  ∃ o best,
    classify f = Some (o, Py.min (best / 5.0) 1.0) ∧
    ((o = "axial" ∧ best = axial_score f
      ∧ sagittal_score f <= axial_score f ∧ coronal_score f <= axial_score f)
     ∨ (o = "sagittal" ∧ best = sagittal_score f
        ∧ axial_score f < sagittal_score f
        ∧ coronal_score f <= sagittal_score f)
     ∨ (o = "coronal" ∧ best = coronal_score f
        ∧ axial_score f < coronal_score f
        ∧ sagittal_score f < coronal_score f)).
Proof.
  unfold classify, orientation_scores, Py.max_by, Py.max_by_from. simpl.
  destruct (Py.ltb (axial_score f) (sagittal_score f)) eqn:E1.
  - destruct (Py.ltb (sagittal_score f) (coronal_score f)) eqn:E2.
    + apply ltb_lt in E1, E2. eexists _, _. split; [reflexivity|].
      right; right. repeat split; lra.
    + apply ltb_lt in E1. apply ltb_ge in E2. eexists _, _.
      split; [reflexivity|]. right; left. repeat split; lra.
  - destruct (Py.ltb (axial_score f) (coronal_score f)) eqn:E2.
    + apply ltb_ge in E1. apply ltb_lt in E2. eexists _, _.
      split; [reflexivity|]. right; right. repeat split; lra.
    + apply ltb_ge in E1, E2. eexists _, _.
      split; [reflexivity|]. left. repeat split; lra.
Qed.

(** Each score is the sum of the amounts of the tests that hold. *)
Lemma axial_score_additive (f : Features) :
  axial_score f ==
    (if Np.gtb (Py.dict_get f "horizontal_symmetry" (Fin 0)) (Fin 0.5)
     then 3.0 else 0)
    + (if Np.leb (Fin 0.8) (Py.dict_get f "aspect_ratio" (Fin 0))
          && Np.leb (Py.dict_get f "aspect_ratio" (Fin 0)) (Fin 1.3)
       then 2.0 else 0)
    + (if Np.gtb (Py.dict_get f "intensity_std" (Fin 0)) (Fin 20)
       then 1.0 else 0).
Proof.
  unfold axial_score.
  destruct (Np.gtb _ (Fin 0.5)), (_ && _), (Np.gtb _ (Fin 20)); ring.
Qed.

Lemma sagittal_score_additive (f : Features) :
  sagittal_score f ==
    (if Np.ltb (Py.dict_get f "vertical_symmetry" (Fin 0)) (Fin 0.3)
     then 2.0 else 0)
    + (if Np.leb (Fin 0.6) (Py.dict_get f "aspect_ratio" (Fin 0))
          && Np.leb (Py.dict_get f "aspect_ratio" (Fin 0)) (Fin 1.0)
       then 2.0 else 0)
    + (if Np.ltb
            (Np.abs_diff (Py.dict_get f "dominant_line_angle" (Fin 90)) 90)
            (Fin 20)
       then 2.0 else 0).
Proof.
  unfold sagittal_score.
  destruct (Np.ltb _ (Fin 0.3)), (_ && _), (Np.ltb _ (Fin 20)); ring.
Qed.

Lemma coronal_score_additive (f : Features) :
  coronal_score f ==
    (if Np.gtb (Py.dict_get f "vertical_symmetry" (Fin 0)) (Fin 0.4)
     then 2.0 else 0)
    + (if Np.leb (Fin 0.9) (Py.dict_get f "aspect_ratio" (Fin 0))
          && Np.leb (Py.dict_get f "aspect_ratio" (Fin 0)) (Fin 1.4)
       then 1.5 else 0)
    + (if Np.gtb (Py.dict_get f "horizontal_symmetry" (Fin 0)) (Fin 0.3)
       then 1.5 else 0).
Proof.
  unfold coronal_score.
  destruct (Np.gtb _ (Fin 0.4)), (_ && _), (Np.gtb _ (Fin 0.3)); ring.
Qed.

End ClassifyFacts.

(** Inside [determine_fetal_orientation] every feature the scores read
    is present, so that no default of [get] is used. *)
Lemma all_features_present
    (np_sqrt : Q → Q) (hough : Array2 → option (list Q))
    (region : Array2) (anatomical : Features) (k : string) :
  detect_anatomical_features np_sqrt hough (Some region) = Some anatomical →
  k ∈ classification_inputs →
  is_Some ((anatomical ∪ analyze_symmetry np_sqrt (Some region)) !! k).
Proof.
  unfold detect_anatomical_features, analyze_symmetry, classification_inputs.
  destruct (height region =? 0)%nat; [discriminate|].
  intros [= <-] Hk. cbv zeta.
  rewrite !elem_of_cons, elem_of_nil in Hk.
  apply lookup_union_is_Some.
  destruct Hk as [->|[->|[->|[->|[->|[]]]]]];
    destruct (hough region); simplify_map_eq; eauto.
Qed.

(** C4: when brain-region extraction fails the result is
    [('unknown', 0.0, {})]; otherwise the three scores follow the fixed
    additive rule (axial: +3.0 if horizontal_symmetry > 0.5, +2.0 if
    aspect_ratio is in [0.8, 1.3], +1.0 if intensity_std > 20; sagittal
    and coronal likewise), the orientation returned is the one of
    maximal score with ties going to axial before sagittal before
    coronal, and the confidence is [min(best_score / 5.0, 1.0)]. *)
Theorem orientation_classification
    (np_sqrt : Q → Q) (hough : Array2 → option (list Q))
    (Image : Type) (detect : Image → option (Array2 * Array2))
    (image_array : Image) :
  let result :=
    determine_fetal_orientation np_sqrt hough Image detect image_array in
  (detect image_array = None → result = Some ("unknown", 0.0%Q, ∅)) ∧
  (∀ region mask anatomical,
     detect image_array = Some (region, mask) →
     detect_anatomical_features np_sqrt hough (Some region) = Some anatomical →
     let f : Features := anatomical ∪ analyze_symmetry np_sqrt (Some region) in
     let get k dflt := Py.dict_get f k (Fin dflt) in
     ∃ o best,
       result = Some (o, Py.min (best / 5.0) 1.0, f) ∧
       (∀ k, k ∈ classification_inputs → is_Some (f !! k)) ∧
       (Py.min (best / 5.0) 1.0 == Qmin (best / 5.0) 1.0)%Q ∧
       (axial_score f ==
          (if Np.gtb (get "horizontal_symmetry" 0) (Fin 0.5) then 3.0 else 0)
          + (if Np.leb (Fin 0.8) (get "aspect_ratio" 0)
                && Np.leb (get "aspect_ratio" 0) (Fin 1.3) then 2.0 else 0)
          + (if Np.gtb (get "intensity_std" 0) (Fin 20) then 1.0 else 0))%Q ∧
       (sagittal_score f ==
          (if Np.ltb (get "vertical_symmetry" 0) (Fin 0.3) then 2.0 else 0)
          + (if Np.leb (Fin 0.6) (get "aspect_ratio" 0)
                && Np.leb (get "aspect_ratio" 0) (Fin 1.0) then 2.0 else 0)
          + (if Np.ltb (Np.abs_diff (get "dominant_line_angle" 90) 90) (Fin 20)
             then 2.0 else 0))%Q ∧
       (coronal_score f ==
          (if Np.gtb (get "vertical_symmetry" 0) (Fin 0.4) then 2.0 else 0)
          + (if Np.leb (Fin 0.9) (get "aspect_ratio" 0)
                && Np.leb (get "aspect_ratio" 0) (Fin 1.4) then 1.5 else 0)
          + (if Np.gtb (get "horizontal_symmetry" 0) (Fin 0.3)
             then 1.5 else 0))%Q ∧
       ((o = "axial" ∧ best = axial_score f
         ∧ sagittal_score f <= axial_score f
         ∧ coronal_score f <= axial_score f)%Q
        ∨ (o = "sagittal" ∧ best = sagittal_score f
           ∧ axial_score f < sagittal_score f
           ∧ coronal_score f <= sagittal_score f)%Q
        ∨ (o = "coronal" ∧ best = coronal_score f
           ∧ axial_score f < coronal_score f
           ∧ sagittal_score f < coronal_score f)%Q)).
Proof.
  intros result. subst result. unfold determine_fetal_orientation. split.
  - intros ->. reflexivity.
  - intros region mask anatomical Hd Ha. rewrite Hd, Ha.
    set (f := anatomical ∪ analyze_symmetry np_sqrt (Some region)).
    destruct (classify_priority f) as (o & best & Hc & Hprio).
    exists o, best. rewrite Hc.
    split; [reflexivity|].
    split; [intros k Hk; now apply (all_features_present np_sqrt hough)|].
    split; [apply min_Qmin|].
    split; [apply axial_score_additive|].
    split; [apply sagittal_score_additive|].
    split; [apply coronal_score_additive|]. exact Hprio.
Qed.

Lemma orientation_classification_witness :
  determine_fetal_orientation isqrt_Q no_lines Array2 whole_image_region []
    = Some ("unknown", 0.0%Q, ∅)
  ∧ ∃ o best f,
      determine_fetal_orientation isqrt_Q no_lines Array2 whole_image_region
        mirrored_image = Some (o, Py.min (best / 5.0) 1.0, f)
      ∧ (o = "axial" ∨ o = "sagittal" ∨ o = "coronal").
Proof.
  split.
  - apply (proj1 (orientation_classification isqrt_Q no_lines Array2
                    whole_image_region [])).
    reflexivity.
  - destruct (proj2 (orientation_classification isqrt_Q no_lines Array2
                       whole_image_region mirrored_image)
                mirrored_image mirrored_image _ eq_refl eq_refl)
      as (o & best & H & _ & _ & _ & _ & _ & Hprio).
    exists o, best. eexists. split; [exact H|].
    destruct Hprio as [(-> & _)|[(-> & _)|(-> & _)]]; auto.
Defined.

(** C6: the orientation and the confidence are a function of the five
    features the scores read: two feature mappings that agree on
    horizontal_symmetry, vertical_symmetry, aspect_ratio,
    dominant_line_angle and intensity_std are classified alike. *)
Theorem classification_deterministic (f1 f2 : Features) :
  (∀ k, k ∈ classification_inputs → f1 !! k = f2 !! k) →
  classify f1 = classify f2.
Proof.
  intros H.
  assert (∀ k d, k ∈ classification_inputs →
                 Py.dict_get f1 k d = Py.dict_get f2 k d) as Hget.
  { intros k d Hk. unfold Py.dict_get. now rewrite (H k Hk). }
  assert (axial_score f1 = axial_score f2) as Ha.
  { unfold axial_score.
    rewrite !(Hget "horizontal_symmetry"), !(Hget "aspect_ratio"),
      !(Hget "intensity_std"); [reflexivity|..];
      unfold classification_inputs; set_solver. }
  assert (sagittal_score f1 = sagittal_score f2) as Hs.
  { unfold sagittal_score.
    rewrite !(Hget "vertical_symmetry"), !(Hget "aspect_ratio"),
      !(Hget "dominant_line_angle"); [reflexivity|..];
      unfold classification_inputs; set_solver. }
  assert (coronal_score f1 = coronal_score f2) as Hc.
  { unfold coronal_score.
    rewrite !(Hget "vertical_symmetry"), !(Hget "aspect_ratio"),
      !(Hget "horizontal_symmetry"); [reflexivity|..];
      unfold classification_inputs; set_solver. }
  unfold classify, orientation_scores. now rewrite Ha, Hs, Hc.
Qed.

Lemma classification_deterministic_witness :
  classify features_few_lines = classify features_many_lines.
Proof.
  apply (classification_deterministic features_few_lines features_many_lines).
  intros k Hk. unfold classification_inputs in Hk.
  rewrite !elem_of_cons, elem_of_nil in Hk.
  destruct Hk as [->|[->|[->|[->|[->|[]]]]]]; reflexivity.
Defined.

(** ** Zero-variance regions *)

Section ZeroVariance.
Open Scope Q_scope.
Variable np_sqrt : Q → Q.
Hypothesis np_sqrt_0 : ∀ q, q == 0 → np_sqrt q == 0.

Lemma sum_all_zero (xs : list Q) :
  Forall (λ x, x == 0) xs → Np.sum xs == 0.
Proof.
  induction 1 as [|x xs Hx _ IH]; simpl; [reflexivity|].
  rewrite Hx, IH. ring.
Qed.

Lemma sum_constant (c : Q) (xs : list Q) :
  Forall (λ x, x == c) xs →
  Np.sum xs == inject_Z (Z.of_nat (length xs)) * c.
Proof.
  induction 1 as [|x xs Hx _ IH].
  - simpl. ring.
  - cbn [Np.sum foldr length]. fold (Np.sum xs). rewrite Hx, IH.
    rewrite Nat2Z.inj_succ. unfold Z.succ. rewrite inject_Z_plus. ring.
Qed.

Lemma length_inject_nonzero {A} (xs : list A) :
  xs ≠ [] → ¬ inject_Z (Z.of_nat (length xs)) == 0.
Proof.
  destruct xs as [|x xs]; [congruence|]. intros _ H.
  unfold Qeq in H. simpl in H. lia.
Qed.

Lemma mean_constant (c : Q) (xs : list Q) :
  xs ≠ [] → Forall (λ x, x == c) xs →
  ∃ m, Np.mean xs = Fin m ∧ m == c.
Proof.
  intros Hne Hall. unfold Np.mean, Np.div.
  pose proof (length_inject_nonzero xs Hne) as Hn.
  destruct (Qeq_bool (inject_Z (Z.of_nat (length xs))) 0) eqn:E.
  - apply Qeq_bool_iff in E. contradiction.
  - eexists. split; [reflexivity|].
    rewrite (sum_constant c xs Hall). field. exact Hn.
Qed.

Lemma center_constant (c : Q) (xs : list Q) :
  Forall (λ x, x == c) xs → Forall (λ x, x == 0) (Np.center xs).
Proof.
  intros Hall. unfold Np.center. destruct xs as [|x xs].
  - destruct (Np.mean []); constructor.
  - destruct (mean_constant c (x :: xs)) as (m & -> & Hm); [congruence|assumption|].
    apply Forall_fmap. eapply Forall_impl; [exact Hall|].
    intros y Hy. simpl. rewrite Hy, Hm. ring.
Qed.

Lemma dot_zero_l (xs ys : list Q) :
  Forall (λ x, x == 0) xs → Np.dot xs ys == 0.
Proof.
  intros Hall. unfold Np.dot. apply sum_all_zero.
  revert ys. induction Hall as [|x xs Hx _ IH]; intros [|y ys]; simpl;
    constructor; [rewrite Hx; ring | apply IH].
Qed.

Lemma Qeq_bool_zero (q : Q) : q == 0 → Qeq_bool q 0 = true.
Proof. apply Qeq_bool_iff. Qed.

Lemma Qle_bool_zero (q : Q) : q == 0 → Qle_bool 0 q = true.
Proof. intros H. apply Qle_bool_iff. rewrite H. apply Qle_refl. Qed.

Lemma mul_zero_inf (q : Q) : q == 0 → Np.mul (Fin q) PInf = NaN.
Proof. intros H. unfold Np.mul. now rewrite (Qeq_bool_zero _ H). Qed.

Lemma div_nan_l (y : npfloat) : Np.div NaN y = NaN.
Proof. now destruct y. Qed.

Lemma div_zero_zero (a b : Q) : a == 0 → b == 0 → Np.div (Fin a) (Fin b) = NaN.
Proof.
  intros Ha Hb. unfold Np.div.
  now rewrite (Qeq_bool_zero _ Ha), (Qeq_bool_zero _ Hb).
Qed.

Lemma sqrt_zero (q : Q) :
  q == 0 → ∃ r, Np.sqrt np_sqrt (Fin q) = Fin r ∧ r == 0.
Proof.
  intros H. unfold Np.sqrt. rewrite (Qle_bool_zero _ H).
  eexists. split; [reflexivity | now apply np_sqrt_0].
Qed.

(** The correlation with a constant first argument is undefined. *)
Lemma corrcoef_constant (c : Q) (xs ys : list Q) :
  Forall (λ x, x == c) xs → Np.corrcoef01 np_sqrt xs ys = NaN.
Proof.
  intros Hall. pose proof (center_constant c xs Hall) as Hdx.
  unfold Np.corrcoef01.
  pose proof (dot_zero_l (Np.center xs) (Np.center xs) Hdx) as H00.
  pose proof (dot_zero_l (Np.center xs) (Np.center ys) Hdx) as H01.
  destruct (Np.div (Fin 1) (Fin _)) as [s| | |] eqn:Escale.
  - cbn [Np.mul].
    assert (Np.dot (Np.center xs) (Np.center xs) * s == 0) as Hc00
      by (rewrite H00; ring).
    assert (Np.dot (Np.center xs) (Np.center ys) * s == 0) as Hc01
      by (rewrite H01; ring).
    destruct (sqrt_zero _ Hc00) as (r & -> & Hr).
    rewrite (div_zero_zero _ _ Hc01 Hr), div_nan_l. reflexivity.
  - rewrite (mul_zero_inf _ H01), !div_nan_l. reflexivity.
  - unfold Np.div in Escale.
    destruct (Qeq_bool _ 0); [|discriminate]. discriminate.
  - cbn [Np.mul]. destruct (Np.dot _ _); rewrite !div_nan_l; reflexivity.
Qed.

Lemma std_constant (c : Q) (xs : list Q) :
  xs ≠ [] → Forall (λ x, x == c) xs →
  ∃ s, Np.std np_sqrt xs = Fin s ∧ s == 0.
Proof.
  intros Hne Hall. unfold Np.std.
  destruct (mean_constant c xs Hne Hall) as (m & -> & Hm).
  destruct (mean_constant 0 (map (λ x, (x - m) * (x - m)) xs))
    as (v & -> & Hv).
  - destruct xs; [congruence | discriminate].
  - apply Forall_fmap. eapply Forall_impl; [exact Hall|].
    intros y Hy. simpl. rewrite Hy, Hm. ring.
  - unfold Np.sqrt. rewrite (Qle_bool_zero _ Hv).
    eexists. split; [reflexivity | now apply np_sqrt_0].
Qed.

(** A region all of whose samples are [c]. *)
Lemma flatten_constant (c : Z) (a : Array2) :
  Forall (Forall (λ v, v = c)) a →
  Forall (λ x, x == inject_Z c) (flatten a).
Proof.
  intros H. unfold flatten. apply Forall_fmap. apply Forall_concat.
  eapply Forall_impl; [exact H|]. intros row Hrow.
  eapply Forall_impl; [exact Hrow|]. intros v ->. simpl. reflexivity.
Qed.

Lemma rows_constant (c : Z) (g : list Z → list Z) (a : Array2) :
  (∀ row, Forall (λ v, v = c) row → Forall (λ v, v = c) (g row)) →
  Forall (Forall (λ v, v = c)) a → Forall (Forall (λ v, v = c)) (map g a).
Proof.
  intros Hg H. apply Forall_fmap. eapply Forall_impl; [exact H|]. exact Hg.
Qed.

End ZeroVariance.

(** C5: on a region whose samples are all equal (all black, all white,
    or any other constant), [calculate_skewness] returns 0 through its
    [std == 0] guard, and both symmetry correlations, undefined for a
    zero-variance half, are returned as 0; neither function lets a nan
    out. *)
Theorem constant_region_guards
    (np_sqrt : Q → Q) (region : Array2) (c : Z) :
  (∀ q, (q == 0)%Q → (np_sqrt q == 0)%Q) →
  Forall (Forall (λ v, v = c)) region →
  concat region ≠ [] →
  calculate_skewness np_sqrt region = Fin 0 ∧
  analyze_symmetry np_sqrt (Some region) =
    <["horizontal_symmetry" := Fin 0]> (<["vertical_symmetry" := Fin 0]> ∅).
Proof.
  intros Hsqrt Hc Hne. split.
  - unfold calculate_skewness.
    destruct (std_constant np_sqrt Hsqrt (inject_Z c) (flatten region))
      as (s & -> & Hs).
    + unfold flatten. destruct (concat region); [congruence | discriminate].
    + now apply flatten_constant.
    + unfold Np.eqb, Np.compare.
      assert ((s ?= 0)%Q = Eq) as -> by now apply Qeq_alt. reflexivity.
  - unfold analyze_symmetry. cbv zeta.
    rewrite (corrcoef_constant np_sqrt Hsqrt (inject_Z c)).
    + rewrite (corrcoef_constant np_sqrt Hsqrt (inject_Z c)); [reflexivity|].
      apply flatten_constant. apply Forall_take. now apply Forall_take.
    + apply flatten_constant.
      apply rows_constant; [intros; now apply Forall_take|].
      apply rows_constant; [intros; now apply Forall_take|]. exact Hc.
Qed.

Lemma constant_region_guards_witness :
  calculate_skewness isqrt_Q white_region = Fin 0 ∧
  analyze_symmetry isqrt_Q (Some white_region) =
    <["horizontal_symmetry" := Fin 0]> (<["vertical_symmetry" := Fin 0]> ∅).
Proof.
  apply (constant_region_guards isqrt_Q white_region 255).
  - intros [n d] H. unfold Qeq in H. simpl in H.
    assert (n = 0%Z) as -> by lia. reflexivity.
  - repeat constructor.
  - discriminate.
Defined.

(** ** [max] with a key *)

Section MaxBy.
Open Scope Q_scope.
Context {A : Type} (key : A → Q).

(** The element returned is the first one of maximal key. *)
Lemma max_by_from_split (best0 : A) (xs : list A) :
  ∃ pre post,
    best0 :: xs = pre ++ Py.max_by_from key best0 xs :: post ∧
    Forall (λ x, key x < key (Py.max_by_from key best0 xs)) pre ∧
    Forall (λ x, key x <= key (Py.max_by_from key best0 xs)) post.
Proof.
  revert best0. induction xs as [|x xs IH]; intros best0; simpl.
  - exists [], []. repeat split; constructor.
  - destruct (Py.ltb (key best0) (key x)) eqn:E.
    + apply ltb_lt in E. destruct (IH x) as (pre & post & Heq & Hpre & Hpost).
      exists (best0 :: pre), post. rewrite Heq. split; [reflexivity|].
      split; [|exact Hpost]. constructor; [|exact Hpre].
      destruct pre as [|y pre]; simpl in Heq.
      * injection Heq as <- _. exact E.
      * injection Heq as <- _. inversion Hpre; subst. lra.
    + apply ltb_ge in E. destruct (IH best0) as (pre & post & Heq & Hpre & Hpost).
      remember (Py.max_by_from key best0 xs) as b eqn:Eb. clear Eb.
      destruct pre as [|y pre]; simpl in Heq.
      * injection Heq as Hb Hxs. subst b post. exists [], (x :: xs).
        split; [reflexivity|].
        split; [constructor|]. constructor; assumption.
      * injection Heq as Hy Hxs. subst y. exists (best0 :: x :: pre), post.
        split; [simpl; now rewrite Hxs|]. split; [|exact Hpost].
        inversion Hpre; subst. constructor; [assumption|].
        constructor; [lra | assumption].
Qed.

Lemma max_by_split (xs : list A) :
  xs ≠ [] →
  ∃ best pre post,
    Py.max_by key xs = Some best ∧ xs = pre ++ best :: post ∧
    Forall (λ x, key x < key best) pre ∧ Forall (λ x, key x <= key best) post.
Proof.
  destruct xs as [|x xs]; [congruence|]. intros _.
  destruct (max_by_from_split x xs) as (pre & post & H).
  exists (Py.max_by_from key x xs), pre, post. split; [reflexivity | exact H].
Qed.

End MaxBy.

(** ** Rounding to one decimal *)

Section Rounding.
Open Scope Q_scope.

Lemma rint_close (y : Q) :
  y - (1 # 2) <= inject_Z (rint y) <= y + (1 # 2).
Proof.
  unfold rint. pose proof (Qfloor_le y) as Hlo.
  pose proof (Qlt_floor y) as Hhi. rewrite inject_Z_plus in Hhi.
  change (inject_Z 1) with 1 in Hhi.
  destruct (Qcompare_spec (y - inject_Z (Qfloor y)) (1 # 2)) as [E|E|E].
  - destruct (Z.even (Qfloor y)); [|rewrite inject_Z_plus;
                                    change (inject_Z 1) with 1]; lra.
  - lra.
  - rewrite inject_Z_plus. change (inject_Z 1) with 1. lra.
Qed.

(** [round1 x] is a whole number of tenths, at most half a tenth away
    from [x]. *)
Lemma round1_close (x : Q) :
  round1 x * 10 == inject_Z (rint (x * 10)) ∧
  x - (1 # 20) <= round1 x <= x + (1 # 20).
Proof.
  unfold round1. pose proof (rint_close (x * 10)) as H. split.
  - field.
  - split.
    + apply Qle_shift_div_l; [reflexivity | lra].
    + apply Qle_shift_div_r; [reflexivity | lra].
Qed.

End Rounding.

(** ** Folder summary *)

Section SummaryFacts.
Variable analyze : string → Analysis.
Variable set_iter : list string → list string.
Hypothesis set_iter_elements : ∀ xs x, x ∈ set_iter xs ↔ x ∈ xs.

Lemma max_by_Some_split {A} (key : A → Q) (xs : list A) (best : A) :
  Py.max_by key xs = Some best →
  ∃ pre post,
    xs = pre ++ best :: post ∧
    Forall (λ x, (key x < key best)%Q) pre ∧
    Forall (λ x, (key x <= key best)%Q) post.
Proof.
  destruct xs as [|x xs]; [discriminate|]. simpl. intros [= <-].
  apply max_by_from_split.
Qed.

(** With at least one scored file the folder gets a summary, built from
    the two maxima. *)
Lemma analyze_patient_folder_summary (folder : Entry) :
  scored analyze (dicom_files_of folder) ≠ [] →
  let results := scored analyze (dicom_files_of folder) in
  let orientations := map File.fetal_orientation results in
  ∃ best most_common,
    Py.max_by (λ x, inject_Z (File.composite_score x)) results = Some best ∧
    Py.max_by (λ o, inject_Z (Z.of_nat (count_occ_str orientations o)))
      (set_iter orientations) = Some most_common ∧
    analyze_patient_folder analyze set_iter folder =
      FolderSummary
        {| Summary.folder_path := path folder;
           Summary.folder_name := name folder;
           Summary.total_dicoms := length (dicom_files_of folder);
           Summary.valid_dicoms := length results;
           Summary.best_score := File.composite_score best;
           Summary.best_quality_class := File.quality_class best;
           Summary.best_file := File.file_path best;
           Summary.fetal_orientation := File.fetal_orientation best;
           Summary.orientation_confidence := File.orientation_confidence best;
           Summary.maternal_acquisition_plane :=
             File.maternal_acquisition_plane best;
           Summary.most_common_fetal_orientation := most_common;
           Summary.avg_score :=
             round1 (mean_score (map File.composite_score results));
           Summary.all_results := results |}.
Proof.
  intros Hne. cbv zeta. unfold analyze_patient_folder.
  destruct (dicom_files_of folder) as [|d ds]; [now destruct Hne|].
  destruct (scored analyze (d :: ds)) as [|r rs]; [congruence|].
  set (orientations := map File.fetal_orientation (r :: rs)).
  assert (set_iter orientations ≠ []) as Hset.
  { intros Hnil. assert (File.fetal_orientation r ∈ set_iter orientations) as Hin
      by (apply set_iter_elements; subst orientations; simpl; left).
    rewrite Hnil in Hin. inversion Hin. }
  destruct (max_by_split (λ o, inject_Z (Z.of_nat (count_occ_str orientations o)))
              (set_iter orientations) Hset) as (mc & _ & _ & Hmc & _).
  rewrite Hmc. simpl Py.max_by.
  eexists _, mc. split; [reflexivity|]. split; [reflexivity|]. reflexivity.
Qed.

(** Without a scored file the folder gets an error result. *)
Lemma analyze_patient_folder_error (folder : Entry) :
  scored analyze (dicom_files_of folder) = [] ↔
  ∃ msg, analyze_patient_folder analyze set_iter folder = FolderError msg.
Proof.
  unfold analyze_patient_folder. split.
  - intros Hnil. destruct (dicom_files_of folder); [eauto|].
    rewrite Hnil. eauto.
  - intros [msg H]. destruct (dicom_files_of folder) as [|d ds]; [reflexivity|].
    destruct (scored analyze (d :: ds)) as [|r rs]; [reflexivity|].
    simpl in H. destruct (Py.max_by _ (set_iter _)) in H; discriminate.
Qed.

End SummaryFacts.

Section MostCommon.
Variable set_iter : list string → list string.
Hypothesis set_iter_elements : ∀ xs x, x ∈ set_iter xs ↔ x ∈ xs.

(** The orientation picked occurs in the list, no other occurs more
    often, and it is the first of its count in the iteration order of
    the set. *)
Lemma most_common_is_max (orientations : list string) (mc : string) :
  Py.max_by (λ o, inject_Z (Z.of_nat (count_occ_str orientations o)))
    (set_iter orientations) = Some mc →
  (∃ seen unseen,
     set_iter orientations = seen ++ mc :: unseen ∧
     Forall (λ o, (count_occ_str orientations o
                   < count_occ_str orientations mc)%nat) seen ∧
     Forall (λ o, (count_occ_str orientations o
                   ≤ count_occ_str orientations mc)%nat) unseen) ∧
  mc ∈ orientations ∧
  (∀ o, o ∈ orientations →
        (count_occ_str orientations o ≤ count_occ_str orientations mc)%nat).
Proof.
  intros H. apply max_by_Some_split in H as (seen & unseen & Heq & Hseen & Hunseen).
  assert (Forall (λ o, (count_occ_str orientations o
                        < count_occ_str orientations mc)%nat) seen) as Hseen'.
  { eapply Forall_impl; [exact Hseen|]. intros o Ho. simpl in Ho.
    rewrite <- Zlt_Qlt in Ho. lia. }
  assert (Forall (λ o, (count_occ_str orientations o
                        ≤ count_occ_str orientations mc)%nat) unseen) as Hunseen'.
  { eapply Forall_impl; [exact Hunseen|]. intros o Ho. simpl in Ho.
    rewrite <- Zle_Qle in Ho. lia. }
  split; [exists seen, unseen; auto|]. split.
  - apply set_iter_elements. rewrite Heq. apply elem_of_app. right. left.
  - intros o Ho. apply set_iter_elements in Ho. rewrite Heq in Ho.
    apply elem_of_app in Ho as [Ho|Ho].
    + rewrite Forall_forall in Hseen'. specialize (Hseen' o Ho). lia.
    + apply elem_of_cons in Ho as [->|Ho]; [lia|].
      rewrite Forall_forall in Hunseen'. exact (Hunseen' o Ho).
Qed.

End MostCommon.

(** C3 (as the code has it): for a folder with at least one scored
    file, the best file is the first one of maximal composite score, the
    most common orientation is one of maximal occurrence count, ties
    going to the one that comes first when the set of distinct
    orientations is iterated, and avg_score is the mean of the scores
    rounded to one decimal.  Three files scoring 40, 40, 70 with
    orientations axial, axial, sagittal give best_score 70 with the
    sagittal file's orientation, AXIAL as most common orientation, and
    avg_score 50.0. *)
Theorem folder_summary_selection
    (analyze : string → Analysis) (set_iter : list string → list string)
    (folder : Entry) :
  (∀ xs x, x ∈ set_iter xs ↔ x ∈ xs) →
  (scored analyze (dicom_files_of folder) ≠ [] →
   ∃ s best before after seen unseen,
     analyze_patient_folder analyze set_iter folder = FolderSummary s ∧
     Summary.all_results s = scored analyze (dicom_files_of folder) ∧
     Summary.all_results s = before ++ best :: after ∧
     Forall (λ r, File.composite_score r < File.composite_score best) before ∧
     Forall (λ r, File.composite_score r <= File.composite_score best) after ∧
     Summary.best_score s = File.composite_score best ∧
     Summary.best_file s = File.file_path best ∧
     Summary.fetal_orientation s = File.fetal_orientation best ∧
     set_iter (map File.fetal_orientation (Summary.all_results s)) =
       seen ++ Summary.most_common_fetal_orientation s :: unseen ∧
     Forall (λ o, (count_occ_str (map File.fetal_orientation (Summary.all_results s)) o
                   < count_occ_str (map File.fetal_orientation (Summary.all_results s))
                       (Summary.most_common_fetal_orientation s))%nat) seen ∧
     Forall (λ o, (count_occ_str (map File.fetal_orientation (Summary.all_results s)) o
                   ≤ count_occ_str (map File.fetal_orientation (Summary.all_results s))
                       (Summary.most_common_fetal_orientation s))%nat) unseen ∧
     Summary.most_common_fetal_orientation s
       ∈ map File.fetal_orientation (Summary.all_results s) ∧
     (∀ o, o ∈ map File.fetal_orientation (Summary.all_results s) →
           (count_occ_str (map File.fetal_orientation (Summary.all_results s)) o
            ≤ count_occ_str (map File.fetal_orientation (Summary.all_results s))
                (Summary.most_common_fetal_orientation s))%nat) ∧
     Summary.avg_score s =
       round1 (mean_score (map File.composite_score (Summary.all_results s))) ∧
     (mean_score (map File.composite_score (Summary.all_results s)) - (1 # 20)
      <= Summary.avg_score s
      <= mean_score (map File.composite_score (Summary.all_results s)) + (1 # 20))%Q)
  ∧
  (∃ s, analyze_patient_folder sample_analysis set_iter three_slices
          = FolderSummary s ∧
        map File.composite_score (Summary.all_results s) = [40; 40; 70] ∧
        map File.fetal_orientation (Summary.all_results s)
          = ["AXIAL"; "AXIAL"; "SAGITTAL"] ∧
        Summary.best_score s = 70 ∧
        Summary.best_file s = "/data/case1/c.dcm" ∧
        Summary.fetal_orientation s = "SAGITTAL" ∧
        Summary.most_common_fetal_orientation s = "AXIAL" ∧
        Summary.avg_score s = 50.0%Q).
Proof.
  intros Hset. split.
  - intros Hne.
    destruct (analyze_patient_folder_summary analyze set_iter Hset folder Hne)
      as (best & mc & Hbest & Hmc & ->).
    apply max_by_Some_split in Hbest as (before & after & Heq & Hb & Ha).
    destruct (most_common_is_max set_iter Hset _ _ Hmc)
      as ((seen & unseen & Hs & Hseen & Hunseen) & Hin & Hmax).
    eexists _, best, before, after, seen, unseen. cbn [Summary.all_results
      Summary.best_score Summary.best_file Summary.fetal_orientation
      Summary.most_common_fetal_orientation Summary.avg_score].
    split; [reflexivity|]. split; [reflexivity|]. split; [exact Heq|].
    split. { eapply Forall_impl; [exact Hb|]. intros r Hr. simpl in Hr. now rewrite <- Zlt_Qlt in Hr. }
    split. { eapply Forall_impl; [exact Ha|]. intros r Hr. simpl in Hr. now rewrite <- Zle_Qle in Hr. }
    do 3 (split; [reflexivity|]).
    split; [exact Hs|]. split; [exact Hseen|]. split; [exact Hunseen|].
    split; [exact Hin|]. split; [exact Hmax|]. split; [reflexivity|].
    apply round1_close.
  - destruct (analyze_patient_folder_summary sample_analysis set_iter Hset
                three_slices) as (best & mc & Hbest & Hmc & ->).
    { vm_compute. discriminate. }
    eexists. split; [reflexivity|].
    cbn [Summary.all_results Summary.best_score Summary.best_file
         Summary.fetal_orientation Summary.most_common_fetal_orientation
         Summary.avg_score].
    assert (scored sample_analysis (dicom_files_of three_slices) =
            [ {| File.file_path := "/data/case1/a.dcm"; File.composite_score := 40;
                 File.quality_class := FAIR; File.fetal_orientation := "AXIAL";
                 File.orientation_confidence := 1.0;
                 File.maternal_acquisition_plane := "UNKNOWN" |};
              {| File.file_path := "/data/case1/b.dcm"; File.composite_score := 40;
                 File.quality_class := FAIR; File.fetal_orientation := "AXIAL";
                 File.orientation_confidence := 1.0;
                 File.maternal_acquisition_plane := "UNKNOWN" |};
              {| File.file_path := "/data/case1/c.dcm"; File.composite_score := 70;
                 File.quality_class := EXCELLENT; File.fetal_orientation := "SAGITTAL";
                 File.orientation_confidence := 1.0;
                 File.maternal_acquisition_plane := "UNKNOWN" |} ]) as Hres
      by (vm_compute; reflexivity).
    rewrite Hres in *.
    assert (best = {| File.file_path := "/data/case1/c.dcm"; File.composite_score := 70;
                 File.quality_class := EXCELLENT; File.fetal_orientation := "SAGITTAL";
                 File.orientation_confidence := 1.0;
                 File.maternal_acquisition_plane := "UNKNOWN" |}) as ->.
    { vm_compute in Hbest. injection Hbest as <-. reflexivity. }
    split; [reflexivity|]. split; [reflexivity|]. split; [reflexivity|].
    split; [reflexivity|]. split; [reflexivity|]. split; [|vm_compute; reflexivity].
    destruct (most_common_is_max set_iter Hset _ _ Hmc) as (_ & Hin & Hmax).
    simpl in Hin. rewrite !elem_of_cons, elem_of_nil in Hin.
    destruct Hin as [->|[->|[->|[]]]]; try reflexivity.
    specialize (Hmax "AXIAL" ltac:(simpl; left)).
    vm_compute in Hmax. lia.
Qed.

Lemma folder_summary_selection_witness :
  (∃ s, analyze_patient_folder sample_analysis first_seen_order three_slices
          = FolderSummary s ∧
        Summary.all_results s
          = scored sample_analysis (dicom_files_of three_slices)) ∧
  (∃ s, analyze_patient_folder sample_analysis first_seen_order three_slices
          = FolderSummary s ∧
        Summary.best_score s = 70 ∧
        Summary.fetal_orientation s = "SAGITTAL" ∧
        Summary.most_common_fetal_orientation s = "AXIAL" ∧
        Summary.avg_score s = 50.0%Q).
Proof.
  destruct (folder_summary_selection sample_analysis first_seen_order
              three_slices) as [Hgeneral Hexample].
  - intros xs x. unfold first_seen_order. apply elem_of_remove_dups.
  - split.
    + destruct Hgeneral as (s & _ & _ & _ & _ & _ & Hs & Hall & _).
      * vm_compute. discriminate.
      * exists s. split; assumption.
    + destruct Hexample as (s & Hs & _ & _ & Hb & _ & Ho & Hm & Ha).
      exists s. repeat split; assumption.
Defined.

(** C3, as stated, fails on ties: in a folder whose two files score
    alike with orientations AXIAL then SAGITTAL, both orientations occur
    once, AXIAL is met first, and an iteration of the set that yields
    SAGITTAL first makes SAGITTAL the most common orientation. *)
Lemma most_common_tie_not_by_encounter :
  (∀ xs x, x ∈ last_seen_order xs ↔ x ∈ xs) ∧
  (∀ xs, NoDup (last_seen_order xs)) ∧
  ∃ s, analyze_patient_folder sample_analysis last_seen_order two_slices
         = FolderSummary s ∧
       map File.fetal_orientation (Summary.all_results s)
         = ["AXIAL"; "SAGITTAL"] ∧
       count_occ_str ["AXIAL"; "SAGITTAL"] "AXIAL"
         = count_occ_str ["AXIAL"; "SAGITTAL"] "SAGITTAL" ∧
       Summary.most_common_fetal_orientation s = "SAGITTAL" ∧
       Summary.most_common_fetal_orientation s ≠ "AXIAL".
Proof.
  split; [|split].
  - intros xs x. unfold last_seen_order.
    rewrite elem_of_reverse. apply elem_of_remove_dups.
  - intros xs. unfold last_seen_order. rewrite reverse_Permutation.
    apply NoDup_remove_dups.
  - eexists. split; [vm_compute; reflexivity|].
    cbn [Summary.all_results Summary.most_common_fetal_orientation].
    repeat split; try reflexivity. discriminate.
Qed.

(** ** The batch driver *)

Section BatchFacts.
Variable analyze : string → Analysis.
Variable set_iter : list string → list string.

Lemma process_entry_unreadable (dry_run : bool) (e : Entry) (st : BatchState) :
  scored analyze (dicom_files_of e) = [] →
  process_entry analyze set_iter dry_run e st = inl st.
Proof.
  intros Hnil. unfold process_entry. destruct (visible_dir e); [|reflexivity].
  destruct (proj1 (analyze_patient_folder_error analyze set_iter e) Hnil)
    as [msg ->]. reflexivity.
Qed.

Lemma batch_loop_without_unreadable (dry_run : bool) (entries : list Entry)
    (st : BatchState) :
  batch_loop analyze set_iter dry_run entries st =
  batch_loop analyze set_iter dry_run
    (filter (λ e, (0 < length (scored analyze (dicom_files_of e)))%nat) entries)
    st.
Proof.
  revert st. induction entries as [|e entries IH]; intros st; [reflexivity|].
  rewrite filter_cons. case_decide as Hlen.
  - simpl. destruct (process_entry _ _ _ e st); [apply IH | reflexivity].
  - simpl. rewrite process_entry_unreadable; [apply IH|].
    destruct (scored analyze (dicom_files_of e)); [reflexivity|simpl in Hlen; lia].
Qed.

Hypothesis set_iter_elements : ∀ xs x, x ∈ set_iter xs ↔ x ∈ xs.

Lemma batch_loop_rows (dry_run : bool) (entries : list Entry) (st : BatchState) :
  ∃ st',
    batch_loop analyze set_iter dry_run entries st = inl st' ∧
    map original_name (results st') =
      map original_name (results st)
      ++ map name
           (filter (λ e, Is_true (visible_dir e)
                         ∧ (0 < length (scored analyze (dicom_files_of e)))%nat)
                   entries) ∧
    map fst (renames st') =
      map fst (renames st)
      ++ (if dry_run then []
          else map name
                 (filter (λ e, Is_true (visible_dir e)
                               ∧ (0 < length (scored analyze (dicom_files_of e)))%nat)
                         entries)).
Proof.
  revert st. induction entries as [|e entries IH]; intros st.
  - exists st. split; [reflexivity|]. rewrite filter_nil. simpl.
    destruct dry_run; rewrite !app_nil_r; split; reflexivity.
  - simpl. rewrite filter_cons.
    destruct (decide (Is_true (visible_dir e)
                      ∧ (0 < length (scored analyze (dicom_files_of e)))%nat))
      as [[Hv Hlen]|Hc].
    + apply Is_true_true in Hv. unfold process_entry. rewrite Hv.
      destruct (analyze_patient_folder_summary analyze set_iter
                  set_iter_elements e) as (best & mc & _ & _ & ->).
      { intros Hnil. rewrite Hnil in Hlen. simpl in Hlen. lia. }
      match goal with |- context [batch_loop _ _ _ _ ?s] =>
        destruct (IH s) as (st' & -> & Hrows & Hren) end.
      exists st'. split; [reflexivity|]. simpl in Hrows, Hren.
      rewrite Hrows, Hren. rewrite !map_app. simpl.
      rewrite <- !app_assoc. split; [reflexivity|].
      destruct dry_run; simpl; [reflexivity|].
      rewrite map_app, <- app_assoc. reflexivity.
    + assert (process_entry analyze set_iter dry_run e st = inl st) as ->.
      { destruct (visible_dir e) eqn:Ev.
        - apply process_entry_unreadable.
          destruct (scored analyze (dicom_files_of e)) eqn:Es; [reflexivity|].
          exfalso. apply Hc. split; [exact I | simpl; lia].
        - unfold process_entry. now rewrite Ev. }
      apply IH.
Qed.

End BatchFacts.

Lemma NoDup_map_inj_on {A B} (f : A → B) (l : list A) (x y : A) :
  NoDup (map f l) → x ∈ l → y ∈ l → f x = f y → x = y.
Proof.
  induction l as [|a l IH]; intros Hnd Hx Hy Heq; [inversion Hx|].
  simpl in Hnd. apply NoDup_cons in Hnd as [Hna Hnd].
  apply elem_of_cons in Hx as [->|Hx]; apply elem_of_cons in Hy as [->|Hy].
  - reflexivity.
  - exfalso. apply Hna. rewrite Heq. apply list_elem_of_fmap. eauto.
  - exfalso. apply Hna. rewrite <- Heq. apply list_elem_of_fmap. eauto.
  - now apply IH.
Qed.

(** C8: a folder without a single scored DICOM file gets an error result
    from [analyze_patient_folder]; the driver passes over it, so that it
    is never renamed and has no row in the returned results nor in the
    CSV report.  The rows, in order, are those of the visible
    directories with at least one scored file, and the run is the same
    as if the folders without a scored file were not there. *)
Theorem unreadable_folders_skipped
    (analyze : string → Analysis) (set_iter : list string → list string)
    (entries : list Entry) (dry_run : bool) :
  (∀ xs x, x ∈ set_iter xs ↔ x ∈ xs) →
  (∀ folder,
     scored analyze (dicom_files_of folder) = [] →
     ∃ msg, analyze_patient_folder analyze set_iter folder = FolderError msg) ∧
  rename_folders_with_scores_and_orientation analyze set_iter
    (Some entries) dry_run =
  rename_folders_with_scores_and_orientation analyze set_iter
    (Some (filter (λ e, (0 < length (scored analyze (dicom_files_of e)))%nat)
                  entries)) dry_run ∧
  ∃ out,
    rename_folders_with_scores_and_orientation analyze set_iter
      (Some entries) dry_run = inl (Some out) ∧
    map original_name (returned out) =
      map name
        (filter (λ e, Is_true (visible_dir e)
                      ∧ (0 < length (scored analyze (dicom_files_of e)))%nat)
                entries) ∧
    map fst (renamed out) =
      (if dry_run then []
       else map name
              (filter (λ e, Is_true (visible_dir e)
                            ∧ (0 < length (scored analyze (dicom_files_of e)))%nat)
                      entries)) ∧
    csv_rows out = match returned out with [] => None | rows => Some rows end ∧
    (NoDup (map name entries) →
     ∀ folder,
       folder ∈ entries →
       scored analyze (dicom_files_of folder) = [] →
       (name folder ∉ map original_name (returned out)) ∧
       (name folder ∉ map fst (renamed out)) ∧
       ∀ rows, csv_rows out = Some rows →
               name folder ∉ map original_name rows).
Proof.
  intros Hset. split; [|split].
  - intros folder Hnil. now apply analyze_patient_folder_error.
  - unfold rename_folders_with_scores_and_orientation.
    now rewrite <- batch_loop_without_unreadable.
  - unfold rename_folders_with_scores_and_orientation.
    destruct (batch_loop_rows analyze set_iter Hset dry_run entries
                {| results := []; renames := [] |})
      as (st & -> & Hrows & Hren).
    simpl in Hrows, Hren. eexists. split; [reflexivity|].
    cbn [returned renamed csv_rows].
    split; [exact Hrows|]. split; [exact Hren|]. split; [reflexivity|].
    intros Hnodup folder Hin Hnil.
    assert (name folder ∉
            map name
              (filter (λ e, Is_true (visible_dir e)
                            ∧ (0 < length (scored analyze (dicom_files_of e)))%nat)
                      entries)) as Hnot.
    { intros Hmem. apply list_elem_of_fmap in Hmem as (e & Hname & He).
      apply list_elem_of_filter in He as [[_ Hlen] He].
      assert (folder = e) as <-.
      { eapply (NoDup_map_inj_on name); eauto. }
      rewrite Hnil in Hlen. simpl in Hlen. lia. }
    split; [now rewrite Hrows|]. split.
    + rewrite Hren. destruct dry_run; [apply not_elem_of_nil | exact Hnot].
    + intros rows Hcsv. destruct (results st) eqn:E; [discriminate|].
      injection Hcsv as <-. now rewrite Hrows.
Qed.

Lemma unreadable_folders_skipped_witness :
  (∃ msg, analyze_patient_folder sample_analysis first_seen_order unreadable_case
            = FolderError msg) ∧
  ∃ out,
    rename_folders_with_scores_and_orientation sample_analysis first_seen_order
      (Some sample_master) false = inl (Some out) ∧
    map original_name (returned out) = ["case1"; "case2"] ∧
    map fst (renamed out) = ["case1"; "case2"] ∧
    (name unreadable_case ∉ map original_name (returned out)) ∧
    (name unreadable_case ∉ map fst (renamed out)).
Proof.
  destruct (unreadable_folders_skipped sample_analysis first_seen_order
              sample_master false)
    as (Herr & _ & out & Hrun & Hrows & Hren & _ & Hno).
  - intros xs x. unfold first_seen_order. apply elem_of_remove_dups.
  - split.
    + apply Herr. vm_compute. reflexivity.
    + exists out. split; [exact Hrun|].
      split; [rewrite Hrows; vm_compute; reflexivity|].
      split; [rewrite Hren; vm_compute; reflexivity|].
      destruct (Hno ltac:(apply (bool_decide_unpack _); vm_compute; exact I)
                  unreadable_case) as (H1 & H2 & _).
      * unfold sample_master. apply list_elem_of_further, list_elem_of_here.
      * vm_compute. reflexivity.
      * split; assumption.
Defined.

(** ** Rename, then strip *)

Section NameFacts.

Lemma length_append (a b : string) :
  String.length (a +:+ b) = (String.length a + String.length b)%nat.
Proof. induction a as [|c a IH]; simpl; [reflexivity | now rewrite IH]. Qed.

Lemma split_n_0 (sep : ascii) (s : string) : PyStr.split_n sep 0 s = [s].
Proof. now destruct s. Qed.

(** A first field without separator is cut off whole. *)
Lemma split_n_field (sep : ascii) (k : nat) (field rest : string) :
  free_of sep field = true →
  PyStr.split_n sep (S k) (field +:+ String sep rest)
  = field :: PyStr.split_n sep k rest.
Proof.
  induction field as [|c field IH]; intros Hfree.
  - simpl. now rewrite Ascii.eqb_refl.
  - simpl in Hfree. apply andb_true_iff in Hfree as [Hc Hfree].
    apply negb_true_iff in Hc.
    change (String c field +:+ String sep rest)
      with (String c (field +:+ String sep rest)).
    cbn [PyStr.split_n]. rewrite Hc, (IH Hfree). reflexivity.
Qed.

Lemma digit_not_underscore (c : ascii) :
  PyStr.is_digit_char c = true → Ascii.eqb c "_" = false.
Proof.
  intros H. apply Ascii.eqb_neq. intros ->. vm_compute in H. discriminate.
Qed.

Lemma all_digits_free (s : string) :
  PyStr.all_digits s = true → free_of "_" s = true.
Proof.
  induction s as [|c s IH]; [reflexivity|]. simpl.
  intros H. apply andb_true_iff in H as [Hc Hs].
  now rewrite (digit_not_underscore c Hc), (IH Hs).
Qed.

Lemma uint_all_digits (d : Decimal.uint) :
  PyStr.all_digits (NilEmpty.string_of_uint d) = true.
Proof. induction d; simpl; auto. Qed.

Lemma str_int_isdigit (n : Z) :
  0 <= n →
  PyStr.isdigit (PyStr.str_int n) = true
  ∧ PyStr.all_digits (PyStr.str_int n) = true.
Proof.
  intros Hn. unfold PyStr.str_int.
  destruct n as [|p|p]; [split; reflexivity| |lia].
  simpl. pose proof (uint_all_digits (Pos.to_uint p)) as H.
  destruct (Pos.to_uint p); simpl in *; auto.
Qed.

Lemma format_02d_isdigit (n : Z) :
  0 <= n →
  PyStr.isdigit (PyStr.format_02d n) = true
  ∧ free_of "_" (PyStr.format_02d n) = true.
Proof.
  intros Hn. destruct (str_int_isdigit n Hn) as [Hd Ha].
  unfold PyStr.format_02d. destruct (_ <? 2)%nat.
  - split; [exact Ha | simpl; now apply all_digits_free].
  - split; [exact Hd | now apply all_digits_free].
Qed.

Lemma quality_name_free (q : QualityClass) : free_of "_" (quality_name q) = true.
Proof. now destruct q. Qed.

End NameFacts.

(** C1, on the code: for a non-negative score, stripping the name built
    by the ranker cuts off the score and the quality class only; the
    orientation and the confidence token stay in front of the original
    name, which is therefore not restored. *)
Theorem rename_then_strip_keeps_orientation
    (score : Z) (q : QualityClass) (o : string) (c : Q) (N : string) :
  0 <= score →
  stripped_name (new_folder_name score q o c N)
    = Some (o +:+ "_" +:+ confidence_str c +:+ "_" +:+ N)
  ∧ stripped_name (new_folder_name score q o c N) ≠ Some N.
Proof.
  intros Hs. destruct (format_02d_isdigit score Hs) as [Hd Hf].
  assert (stripped_name (new_folder_name score q o c N)
          = Some (o +:+ "_" +:+ confidence_str c +:+ "_" +:+ N)) as Heq.
  { unfold stripped_name, new_folder_name.
    change ("_" +:+ ?x) with (String "_" x) at 1.
    rewrite (split_n_field "_" 1 _ _ Hf).
    change ("_" +:+ ?x) with (String "_" x) at 1.
    rewrite (split_n_field "_" 0 _ _ (quality_name_free q)).
    rewrite split_n_0, Hd. reflexivity. }
  split; [exact Heq|]. rewrite Heq. intros [= H].
  apply (f_equal String.length) in H.
  rewrite !length_append in H. simpl in H. lia.
Qed.

Lemma rename_then_strip_keeps_orientation_witness :
  stripped_name (new_folder_name 70 GOOD "AXIAL" 1 "case1")
    = Some "AXIAL_C100_case1"
  ∧ stripped_name (new_folder_name 70 GOOD "AXIAL" 1 "case1") ≠ Some "case1".
Proof.
  apply (rename_then_strip_keeps_orientation 70 GOOD "AXIAL" 1 "case1"). lia.
Defined.

(** ** The registration script *)

(** C9: when no file matches the atlas pattern, or when the subject
    volume does not exist, the script raises FileNotFoundError before it
    prints anything or calls the registration library: the run has no
    event and ends with the exception. *)
Theorem missing_inputs_abort (env : Registration.Env) :
  let atlas :=
    Registration.glob env
      (Registration.path_join (Registration.reg_dir env) "t2w_GA*_tissue.nii.gz") in
  let moving_vol :=
    Registration.path_join (Registration.reg_dir env) "FX27-s1_extracted.nii.gz" in
  atlas = [] ∨ Registration.path_exists env moving_vol = false →
  ∃ msg,
    Registration.main env
      = ([], inr {| Registration.exn_class := "FileNotFoundError";
                    Registration.exn_message := msg |}) ∧
    (atlas = [] → msg = "No atlas file found (t2w_GA##_tissue.nii.gz)") ∧
    (atlas ≠ [] → msg = "srr_deconv.nii.gz not found").
Proof.
  intros atlas moving_vol H. unfold Registration.main.
  fold atlas. fold moving_vol.
  destruct atlas as [|a rest] eqn:Ea.
  - eexists. split; [reflexivity|]. split; [reflexivity | congruence].
  - destruct H as [H|H]; [discriminate|]. simpl. rewrite H. simpl.
    eexists. split; [reflexivity|]. split; [discriminate | reflexivity].
Qed.

Lemma missing_inputs_abort_witness :
  (∃ msg, Registration.main empty_reg_dir
          = ([], inr {| Registration.exn_class := "FileNotFoundError";
                        Registration.exn_message := msg |}))
  ∧ (∃ msg, Registration.main atlas_only_reg_dir
            = ([], inr {| Registration.exn_class := "FileNotFoundError";
                          Registration.exn_message := msg |})).
Proof.
  split.
  - destruct (missing_inputs_abort empty_reg_dir) as (msg & H & _).
    + left. reflexivity.
    + exists msg. exact H.
  - destruct (missing_inputs_abort atlas_only_reg_dir) as (msg & H & _).
    + right. reflexivity.
    + exists msg. exact H.
Defined.

(** With both inputs in place the script goes on to the registration. *)
Example complete_run :
  Registration.main complete_reg_dir =
  ([ Registration.Print "Using atlas: /reg/t2w_GA37_tissue.nii.gz";
     Registration.Print "Using moving volume: /reg/FX27-s1_extracted.nii.gz";
     Registration.Print "Found 2 masks";
     Registration.ImageRead "/reg/t2w_GA37_tissue.nii.gz";
     Registration.ImageRead "/reg/FX27-s1_extracted.nii.gz";
     Registration.Print "Running rigid registration...";
     Registration.RigidRegistration "/reg/t2w_GA37_tissue.nii.gz"
       "/reg/FX27-s1_extracted.nii.gz";
     Registration.ImageWrite "/reg/srr_registered.nii.gz";
     Registration.Print "Saved registered SRR volume: /reg/srr_registered.nii.gz";
     Registration.ImageRead "/reg/FX27-s1_extracted.nii.gz";
     Registration.ApplyTransforms "/reg/t2w_GA37_tissue.nii.gz"
       "/reg/FX27-s1_extracted.nii.gz";
     Registration.ImageWrite "/reg/FX27-s1_extracted_rai.nii.gz";
     Registration.Print "Saved registered mask: /reg/FX27-s1_extracted_rai.nii.gz";
     Registration.ImageRead "/reg/sub_L_pial.nii.gz";
     Registration.ApplyTransforms "/reg/t2w_GA37_tissue.nii.gz"
       "/reg/sub_L_pial.nii.gz";
     Registration.ImageWrite "/reg/sub_L_pial_rai.nii.gz";
     Registration.Print "Saved registered mask: /reg/sub_L_pial_rai.nii.gz";
     Registration.Print "Registration completed for all files." ],
   inl tt).
Proof. vm_compute. reflexivity. Qed.

(** * Further properties of the code *)

(** ** Noise regions *)

Section NoiseFacts.

Lemma flatten_length_rect (a : Array2) (c : nat) :
  Forall (λ row, length row = c) a → length (flatten a) = (length a * c)%nat.
Proof.
  unfold flatten. rewrite length_map.
  induction 1 as [|row a Hrow _ IH]; simpl; [reflexivity|].
  rewrite length_app, IH, Hrow. reflexivity.
Qed.

Lemma flatten_empty_rows (a : Array2) :
  Forall (λ row, row = []) a → flatten a = [].
Proof.
  unfold flatten. induction 1 as [|row a -> _ IH]; simpl; [reflexivity|].
  exact IH.
Qed.

Lemma width_rect (a : Array2) (c : nat) :
  a ≠ [] → Forall (λ row, length row = c) a → width a = c.
Proof. destruct a; [congruence|]. intros _ H. now inversion H. Qed.

Lemma slice_last_length {A} (k : nat) (xs : list A) :
  (0 < k ≤ length xs)%nat → length (slice_last k xs) = k.
Proof.
  intros H. unfold slice_last.
  destruct (Nat.eqb_spec k 0); [lia|]. rewrite length_drop. lia.
Qed.

End NoiseFacts.

(** X1: when the smaller side of the image is under 10 pixels the
    border width is 0, the top and left strips are empty, and the
    bottom and right strips, sliced with [-0:], are the whole image:
    the noise sample is the image itself, twice. *)
Theorem noise_regions_of_small_image (image : Array2) :
  (Nat.min (height image) (width image) < 10)%nat →
  get_noise_regions image = flatten image ++ flatten image.
Proof.
  intros Hsmall. unfold get_noise_regions.
  rewrite (Nat.div_small _ 10) by exact Hsmall.
  change (take 0 image) with (@nil (list Z)).
  change (flatten []) with (@nil Q). cbn [app].
  assert (flatten (map (take 0) image) = []) as ->.
  { apply flatten_empty_rows. apply Forall_fmap, Forall_true. now intros row. }
  assert (map (slice_last 0) image = image) as ->.
  { unfold slice_last. simpl. apply map_id. }
  reflexivity.
Qed.

Lemma noise_regions_of_small_image_witness :
  get_noise_regions small_image = flatten small_image ++ flatten small_image.
Proof.
  apply (noise_regions_of_small_image small_image). vm_compute. lia.
Defined.

(** X2: for a rectangular image of [h] rows and [w] columns with both
    sides at least 10, the noise sample has
    [2 * b * w + 2 * h * b] values for [b = min(h, w) // 10]: two
    strips of [b] rows and two of [b] columns, the corners counted
    twice. *)
Theorem noise_regions_size (image : Array2) (w : nat) :
  Forall (λ row, length row = w) image →
  (10 ≤ Nat.min (length image) w)%nat →
  length (get_noise_regions image) =
    (2 * (Nat.min (length image) w / 10) * w
     + 2 * length image * (Nat.min (length image) w / 10))%nat.
Proof.
  intros Hrect Hbig. unfold get_noise_regions, height.
  assert (image ≠ []) as Hne by (destruct image; simpl in *; [lia | congruence]).
  rewrite (width_rect image w Hne Hrect).
  set (b := (Nat.min (length image) w / 10)%nat).
  assert (0 < b)%nat as Hb0
    by (unfold b; apply Nat.div_str_pos; lia).
  assert (b ≤ Nat.min (length image) w)%nat as Hb
    by (unfold b; apply Nat.Div0.div_le_upper_bound; lia).
  assert (b ≤ w)%nat as Hbw by lia.
  assert (b ≤ length image)%nat as Hbh by lia.
  clearbody b. clear Hb Hbig. rewrite !length_app.
  rewrite (flatten_length_rect (take b image) w) by now apply Forall_take.
  rewrite (flatten_length_rect (slice_last b image) w).
  2:{ unfold slice_last. destruct (b =? 0)%nat; [assumption|].
      now apply Forall_drop. }
  rewrite (flatten_length_rect (map (take b) image) b).
  2:{ apply Forall_fmap. eapply Forall_impl; [exact Hrect|].
      intros row Hrow. unfold compose. cbv beta in *. rewrite length_take. lia. }
  rewrite (flatten_length_rect (map (slice_last b) image) b).
  2:{ apply Forall_fmap. eapply Forall_impl; [exact Hrect|].
      intros row Hrow. unfold compose. cbv beta in *. apply slice_last_length. lia. }
  rewrite length_take, slice_last_length, !length_map by lia.
  rewrite (Nat.min_l b (length image)) by lia. nia.
Qed.

Lemma noise_regions_size_witness :
  length (get_noise_regions ramp_image) = 64%nat.
Proof.
  rewrite (noise_regions_size ramp_image 20).
  - reflexivity.
  - unfold ramp_image. apply Forall_replicate. reflexivity.
  - vm_compute. lia.
Defined.
